(** * Synthetic livestock price generator

    A shallow embedding of [Docs/generate-price-sql.py]: the price model
    ([calculate_price]), the category multiplier table
    ([get_category_multiplier]) and the batching emitter of the module body,
    followed by the properties the specification states about them.

    Python values are modelled as follows.
    - [int] is [Z]; [//] and [%] with a positive divisor are [Z.div] and
      [Z.modulo].
    - [float] is IEEE-754 binary64, taken from the standard library's
      [SpecFloat] with [prec = 53] and [emax = 1024]; every arithmetic
      operation rounds to nearest-even as the hardware does.
    - [str] is [string]; the source only uses ASCII text, except for one
      trailer line kept byte for byte.
    - the module-level [random] generator is a piece of state threaded through
      the code; its algorithm, [math.sin] and the salted [hash] of strings are
      supplied by the interpreter and are parameters of the development. *)

From Stdlib Require Import ZArith List String Ascii Bool Lia.
From Stdlib Require Import SpecFloat.
Import ListNotations.

Open Scope Z_scope.

(** ** Binary64 arithmetic *)

Module F64.

Definition prec : Z := 53.
Definition emax : Z := 1024.

Definition float : Type := spec_float.

Definition add : float -> float -> float := SFadd prec emax.
Definition sub : float -> float -> float := SFsub prec emax.
Definition mul : float -> float -> float := SFmul prec emax.
Definition div : float -> float -> float := SFdiv prec emax.
Definition neg : float -> float := SFopp.
Definition ltb : float -> float -> bool := SFltb.
Definition leb : float -> float -> bool := SFleb.

(** [float(n)] for a Python int (round to nearest; exact below 2^53). *)
Definition of_int (n : Z) : float := binary_normalize prec emax n 0 false.

(** The float denoted by the decimal literal [n / 10^k], e.g.
    [dec 330 2] for [3.30]: the correctly rounded quotient of two exactly
    representable integers is the nearest double of the decimal. *)
Definition dec (n : Z) (k : Z) : float := div (of_int n) (of_int (10 ^ k)).

(** Same float, bit for bit (unlike [==], which equates the two zeros and
    separates NaN from itself). *)
Definition same (a b : float) : bool :=
  match a, b with
  | S754_zero s1, S754_zero s2 => Bool.eqb s1 s2
  | S754_infinity s1, S754_infinity s2 => Bool.eqb s1 s2
  | S754_nan, S754_nan => true
  | S754_finite s1 m1 e1, S754_finite s2 m2 e2 =>
      Bool.eqb s1 s2 && Pos.eqb m1 m2 && Z.eqb e1 e2
  | _, _ => false
  end.

(** [math.pi], i.e. 0x1.921fb54442d18p+1. *)
Definition pi : float := S754_finite false 7074237752028440 (-51).

End F64.

Declare Scope f64_scope.
Delimit Scope f64_scope with f64.
Bind Scope f64_scope with F64.float.
Infix "+" := F64.add : f64_scope.
Infix "-" := F64.sub : f64_scope.
Infix "*" := F64.mul : f64_scope.
Infix "/" := F64.div : f64_scope.
Infix "<?" := F64.ltb : f64_scope.
Infix "<=?" := F64.leb : f64_scope.
Notation "- x" := (F64.neg x) : f64_scope.

(** Decimal literals such as [3.30] or [1095.0] denote their nearest double,
    as in Python source text. *)
Definition f64_of_number (n : Number.number) : option F64.float :=
  match n with
  | Number.Decimal (Decimal.Decimal i f) =>
      Some (F64.dec (Z.of_int (Decimal.app_int i f)) (Z.of_nat (Decimal.nb_digits f)))
  | _ => None
  end.

Definition f64_to_number (x : F64.float) : option Number.number := None.

Number Notation spec_float f64_of_number f64_to_number : f64_scope.

(** ** Strings *)

Module Str.

Open Scope string_scope.

Definition quote : ascii := "'"%char.

(** Python's [sub in s] on strings. *)
Fixpoint contains (sub s : string) : bool :=
  match s with
  | EmptyString => prefix sub s
  | String _ s' => prefix sub s || contains sub s'
  end.

(** [any(x in s for x in subs)] *)
Definition any_in (subs : list string) (s : string) : bool :=
  existsb (fun x => contains x s) subs.

(** No quote character anywhere in [s]. *)
Fixpoint quote_free (s : string) : bool :=
  match s with
  | EmptyString => true
  | String c s' => negb (Ascii.eqb c quote) && quote_free s'
  end.

(** [s.replace(old, new)] for a one-character [old]. *)
Fixpoint replace (old : ascii) (new : string) (s : string) : string :=
  match s with
  | EmptyString => EmptyString
  | String c s' =>
      if Ascii.eqb c old then new ++ replace old new s'
      else String c (replace old new s')
  end.

(** [sep.join(parts)] *)
Fixpoint join (sep : string) (parts : list string) : string :=
  match parts with
  | [] => ""
  | [p] => p
  | p :: rest => p ++ sep ++ join sep rest
  end.

Definition digit (d : Z) : ascii := ascii_of_nat (48 + Z.to_nat d).

(** The last [width] decimal digits of [n], zero padded: [%0<width>d] for
    a non-negative [n] that fits. *)
Fixpoint digits (width : nat) (n : Z) : string :=
  match width with
  | O => ""
  | S w => digits w (n / 10) ++ String (digit (n mod 10)) ""
  end.

(** [str(n)] for a non-negative int; [fuel] bounds the number of digits. *)
Fixpoint of_nonneg_aux (fuel : nat) (n : Z) : string :=
  match fuel with
  | O => String (digit (n mod 10)) ""
  | S f =>
      if (n <? 10)%Z then String (digit n) ""
      else of_nonneg_aux f (n / 10) ++ String (digit (n mod 10)) ""
  end.

Definition of_nonneg (n : Z) : string :=
  of_nonneg_aux (Z.to_nat (Z.log2 n)) n.

(** [str(n)] *)
Definition of_int (n : Z) : string :=
  if (n <? 0)%Z then "-" ++ of_nonneg (- n)%Z else of_nonneg n.

(** [f"{n:,}"] for a non-negative int: groups of three digits. *)
Fixpoint with_commas_aux (fuel : nat) (n : Z) : string :=
  match fuel with
  | O => of_nonneg n
  | S f =>
      if (n <? 1000)%Z then of_nonneg n
      else with_commas_aux f (n / 1000) ++ "," ++ digits 3 (n mod 1000)
  end.

Definition with_commas (n : Z) : string :=
  with_commas_aux (Z.to_nat (Z.log2 n)) n.

End Str.

(** ** Calendar dates

    A [datetime] is represented by the proleptic Gregorian ordinal of its date
    ([date.toordinal()], day 1 is 0001-01-01).  The time of day never
    matters here: [START_DATE] is a midnight, so [(END_DATE - START_DATE).days]
    is the difference of the ordinals, and subtracting a whole number of days
    keeps the time of day.  The functions follow CPython's [datetime]. *)

Module Date.

Definition DI400Y : Z := 146097.
Definition DI100Y : Z := 36524.
Definition DI4Y : Z := 1461.

Definition is_leap (year : Z) : bool :=
  (year mod 4 =? 0) && (negb (year mod 100 =? 0) || (year mod 400 =? 0)).

Definition DAYS_IN_MONTH : list Z :=
  [-1; 31; 28; 31; 30; 31; 30; 31; 31; 30; 31; 30; 31].

Definition DAYS_BEFORE_MONTH : list Z :=
  [-1; 0; 31; 59; 90; 120; 151; 181; 212; 243; 273; 304; 334].

Definition days_before_year (year : Z) : Z :=
  let y := year - 1 in y * 365 + y / 4 - y / 100 + y / 400.

Definition days_before_month (year month : Z) : Z :=
  nth (Z.to_nat month) DAYS_BEFORE_MONTH 0
  + (if (2 <? month) && is_leap year then 1 else 0).

(** [date(year, month, day).toordinal()] *)
Definition ymd2ord (year month day : Z) : Z :=
  days_before_year year + days_before_month year month + day.

(** [date.fromordinal(n)] as (year, month, day). *)
Definition ord2ymd (n : Z) : Z * Z * Z :=
  let n := n - 1 in
  let n400 := n / DI400Y in
  let n := n mod DI400Y in
  let year := n400 * 400 + 1 in
  let n100 := n / DI100Y in
  let n := n mod DI100Y in
  let n4 := n / DI4Y in
  let n := n mod DI4Y in
  let n1 := n / 365 in
  let n := n mod 365 in
  let year := year + (n100 * 100 + n4 * 4 + n1) in
  if (n1 =? 4) || (n100 =? 4) then (year - 1, 12, 31)
  else
    let leapyear := (n1 =? 3) && (negb (n4 =? 24) || (n100 =? 3)) in
    let month := Z.shiftr (n + 50) 5 in
    let preceding :=
      nth (Z.to_nat month) DAYS_BEFORE_MONTH 0
      + (if (2 <? month) && leapyear then 1 else 0) in
    if n <? preceding then
      let month := month - 1 in
      let preceding :=
        preceding
        - (nth (Z.to_nat month) DAYS_IN_MONTH 0
           + (if (month =? 2) && leapyear then 1 else 0)) in
      (year, month, n - preceding + 1)
    else (year, month, n - preceding + 1).

(** [d.timetuple().tm_yday] *)
Definition tm_yday (ordinal : Z) : Z :=
  let '(y, m, d) := ord2ymd ordinal in days_before_month y m + d.

(** [d.strftime('%Y-%m-%d')] *)
Definition strftime_ymd (ordinal : Z) : string :=
  let '(y, m, d) := ord2ymd ordinal in
  (Str.digits 4 y ++ "-" ++ Str.digits 2 m ++ "-" ++ Str.digits 2 d)%string.

End Date.

(** ** Fixed-point formatting of floats *)

Module Fmt.

(** Nearest integer to [num / den], ties to even ([den > 0], [num >= 0]). *)
Definition round_half_even (num den : Z) : Z :=
  let q := num / den in
  let r := num mod den in
  match 2 * r ?= den with
  | Lt => q
  | Gt => q + 1
  | Eq => if Z.even q then q else q + 1
  end.

(** The magnitude of [m * 2^e], in ten-thousandths, correctly rounded. *)
Definition scaled4 (m : positive) (e : Z) : Z :=
  if 0 <=? e then Zpos m * 2 ^ e * 10000
  else round_half_even (Zpos m * 10000) (2 ^ (- e)).

Definition sign_text (s : bool) : string := if s then "-" else "".

(** [f"{x:.4f}"] *)
Definition fixed4 (x : F64.float) : string :=
  match x with
  | S754_nan => "nan"
  | S754_infinity s => sign_text s ++ "inf"
  | S754_zero s => sign_text s ++ "0.0000"
  | S754_finite s m e =>
      let n := scaled4 m e in
      sign_text s ++ Str.of_nonneg (n / 10000) ++ "." ++ Str.digits 4 (n mod 10000)
  end%string.

End Fmt.

(** ** The interpreter's services

    [Platform] gathers what the Python runtime and the C library provide and
    that stays the same from one run to the next: the generator behind the
    [random] module and [math.sin].  [Process] gathers what is fixed when one
    run starts: the two clock readings and the per-process salt of string
    hashing (CPython salts [hash] of [str] unless PYTHONHASHSEED pins it). *)

Class Platform : Type := {
  gen : Type;                          (* state of the shared generator *)
  seed : Z -> gen;                     (* state after [random.seed(a)], int a *)
  random : gen -> F64.float * gen;     (* [random.random()] *)
  randbelow : Z -> gen -> Z * gen;     (* [random._randbelow(n)] *)
  sin : F64.float -> F64.float         (* [math.sin] *)
}.

Record Process : Type := {
  now : Z;                (* date ordinal of [datetime.now()] at import time *)
  generated : string;     (* [datetime.now().isoformat()] of the banner *)
  hash : string -> Z      (* [hash] on strings, as salted in this process *)
}.

(** ** The [random] module: code that reads and replaces the shared state *)

Module Random.
Section WithPlatform.
Context {P : Platform}.

Definition Rand (A : Type) : Type := gen -> A * gen.

Definition ret {A} (a : A) : Rand A := fun g => (a, g).

Definition bind {A B} (m : Rand A) (k : A -> Rand B) : Rand B :=
  fun g => let '(a, g') := m g in k a g'.

(** [random.seed(a)]: the previous state is discarded. *)
Definition reseed (a : Z) : Rand unit := fun _ => (tt, seed a).

(** [random.uniform(a, b)]: [a + (b - a) * self.random()] *)
Definition uniform (a b : F64.float) : Rand F64.float :=
  bind random (fun r => ret (a + (b - a) * r)%f64).

(** [random.choice(seq)]: [seq[self._randbelow(len(seq))]].  Both call
    sites pass a non-empty constant, so the [IndexError] raised on an empty
    sequence is not modelled. *)
Definition choice (seq : list string) : Rand string :=
  bind (randbelow (Z.of_nat (List.length seq)))
       (fun i => ret (nth (Z.to_nat i) seq EmptyString)).

End WithPlatform.
End Random.

Notation "x <- m ;; k" := (Random.bind m (fun x => k))
  (at level 61, m at next level, right associativity).
Notation "m ;;; k" := (Random.bind m (fun _ => k))
  (at level 61, right associativity).

(** ** A reference platform: CPython's generator

    [MT19937] transcribes the Mersenne Twister of CPython's [_random] module
    ([init_genrand], [init_by_array], [genrand_uint32], [random],
    [getrandbits], and [seed] for an int argument) and [_randbelow] of
    [random.py].  It instantiates [Platform] for closed examples; the general
    theorems hold for any platform. *)

Module MT19937.

Definition N : Z := 624.
Definition M : Z := 397.
Definition MATRIX_A : Z := 0x9908b0df.
Definition UPPER_MASK : Z := 0x80000000.
Definition LOWER_MASK : Z := 0x7fffffff.

Definition u32 (x : Z) : Z := x mod 2 ^ 32.

Definition get (mt : list Z) (i : Z) : Z := nth (Z.to_nat i) mt 0.

Fixpoint set_nat (mt : list Z) (i : nat) (v : Z) : list Z :=
  match mt, i with
  | [], _ => []
  | _ :: rest, O => v :: rest
  | x :: rest, S i' => x :: set_nat rest i' v
  end.

Definition set (mt : list Z) (i : Z) (v : Z) : list Z :=
  set_nat mt (Z.to_nat i) v.

Record state : Type := { mt : list Z; index : Z }.

(** [for i in range(lo, hi)] *)
Definition upto (lo hi : Z) : list Z :=
  map (fun k => lo + Z.of_nat k) (seq 0 (Z.to_nat (hi - lo))).

Definition init_genrand (s : Z) : state :=
  let step := fun mt mti =>
    let prev := get mt (mti - 1) in
    set mt mti (u32 (1812433253 * Z.lxor prev (Z.shiftr prev 30) + mti)) in
  {| mt := fold_left step (upto 1 N) (set (repeat 0 (Z.to_nat N)) 0 (u32 s));
     index := N |}.

(** The wrap-around of the two cursors shared by both loops of
    [init_by_array]. *)
Definition wrap_i (mt : list Z) (i : Z) : list Z * Z :=
  if N <=? i then (set mt 0 (get mt (N - 1)), 1) else (mt, i).

Definition init_by_array (init_key : list Z) : state :=
  let key_length := Z.of_nat (List.length init_key) in
  let mt0 := mt (init_genrand 19650218) in
  let step1 := fun (acc : list Z * Z * Z) =>
    let '(mt, i, j) := acc in
    let prev := get mt (i - 1) in
    let mt := set mt i
      (u32 (Z.lxor (get mt i) (u32 (Z.lxor prev (Z.shiftr prev 30) * 1664525))
            + get init_key j + j)) in
    let '(mt, i) := wrap_i mt (i + 1) in
    let j := j + 1 in
    (mt, i, if key_length <=? j then 0 else j) in
  let '(mt1, i1, _) :=
    Nat.iter (Z.to_nat (Z.max N key_length)) step1 (mt0, 1, 0) in
  let step2 := fun (acc : list Z * Z) =>
    let '(mt, i) := acc in
    let prev := get mt (i - 1) in
    let mt := set mt i
      (u32 (Z.lxor (get mt i) (u32 (Z.lxor prev (Z.shiftr prev 30) * 1566083941))
            - i)) in
    wrap_i mt (i + 1) in
  let '(mt2, _) := Nat.iter (Z.to_nat (N - 1)) step2 (mt1, i1) in
  {| mt := set mt2 0 0x80000000; index := N |}.

(** The 32-bit words of [n], least significant first; one zero word for 0. *)
Fixpoint key_words (fuel : nat) (n : Z) : list Z :=
  match fuel with
  | O => [u32 n]
  | S f => if n <? 2 ^ 32 then [n] else u32 n :: key_words f (Z.shiftr n 32)
  end.

(** [random.seed(a)] for an int [a]: the key is [abs(a)]. *)
Definition seed (a : Z) : state :=
  let n := Z.abs a in
  init_by_array (key_words (Z.to_nat (Z.log2 n / 32)) n).

Definition twist_word (mt : list Z) (kk next from : Z) : list Z :=
  let y := Z.lor (Z.land (get mt kk) UPPER_MASK) (Z.land (get mt next) LOWER_MASK) in
  set mt kk
    (Z.lxor (Z.lxor (get mt from) (Z.shiftr y 1))
            (if Z.testbit y 0 then MATRIX_A else 0)).

Definition regenerate (mt : list Z) : list Z :=
  let mt := fold_left (fun mt kk => twist_word mt kk (kk + 1) (kk + M)) (upto 0 (N - M)) mt in
  let mt := fold_left (fun mt kk => twist_word mt kk (kk + 1) (kk + (M - N))) (upto (N - M) (N - 1)) mt in
  twist_word mt (N - 1) 0 (M - 1).

Definition genrand_uint32 (st : state) : Z * state :=
  let st := if N <=? index st then {| mt := regenerate (mt st); index := 0 |} else st in
  let y := get (mt st) (index st) in
  let y := Z.lxor y (Z.shiftr y 11) in
  let y := Z.lxor y (Z.land (u32 (Z.shiftl y 7)) 0x9d2c5680) in
  let y := Z.lxor y (Z.land (u32 (Z.shiftl y 15)) 0xefc60000) in
  let y := Z.lxor y (Z.shiftr y 18) in
  (y, {| mt := mt st; index := index st + 1 |}).

(** [random()]: 53 random bits scaled into [0, 1). *)
Definition random (st : state) : F64.float * state :=
  let '(a, st) := genrand_uint32 st in
  let '(b, st) := genrand_uint32 st in
  let a := Z.shiftr a 5 in
  let b := Z.shiftr b 6 in
  (((F64.of_int a * 67108864.0 + F64.of_int b)
    * (1.0 / 9007199254740992.0))%f64, st).

(** [getrandbits(k)]: [k] random bits, 32 at a time, low words first. *)
Fixpoint getrandbits_words (words : nat) (k : Z) (st : state) : Z * state :=
  match words with
  | O => (0, st)
  | S w =>
      let '(r, st) := genrand_uint32 st in
      let r := if k <? 32 then Z.shiftr r (32 - k) else r in
      let '(hi, st) := getrandbits_words w (k - 32) st in
      (r + Z.shiftl hi 32, st)
  end.

Definition getrandbits (k : Z) (st : state) : Z * state :=
  if k <=? 32 then
    let '(r, st) := genrand_uint32 st in (Z.shiftr r (32 - k), st)
  else getrandbits_words (Z.to_nat ((k - 1) / 32 + 1)) k st.

(** [n.bit_length()] for [n >= 0] *)
Definition bit_length (n : Z) : Z := if n <=? 0 then 0 else Z.log2 n + 1.

(** The rejection loop of [_randbelow]: draw [k] bits until the draw is
    below [n].  Python repeats without bound; [retries] bounds the redraws
    here, and 0 stands for a call that would still be drawing. *)
Fixpoint randbelow_loop (retries : nat) (n k : Z) (st : state) : Z * state :=
  let '(r, st) := getrandbits k st in
  if r <? n then (r, st)
  else
    match retries with
    | O => (0, st)
    | S f => randbelow_loop f n k st
    end.

Definition RETRIES : nat := 1000.

Definition randbelow (n : Z) (st : state) : Z * state :=
  randbelow_loop RETRIES n (bit_length n) st.

End MT19937.


(** A stand-in for libm's [sin], whose code lies outside this development: the
    Taylor polynomial of degree 7.  It only serves to close examples. *)
Definition sin_taylor (x : F64.float) : F64.float :=
  (let x2 := x * x in
   x * (1 - x2 / 6 * (1 - x2 / 20 * (1 - x2 / 42))))%f64.

Definition cpython : Platform := {|
  gen := MT19937.state;
  seed := MT19937.seed;
  random := MT19937.random;
  randbelow := MT19937.randbelow;
  sin := sin_taylor
|}.

(** ** The script *)

(** Python's two-argument [min] and [max]: the first argument is kept unless
    the second compares strictly below (above) it. *)
Definition py_min (a b : F64.float) : F64.float := if (b <? a)%f64 then b else a.
Definition py_max (a b : F64.float) : F64.float := if (a <? b)%f64 then b else a.

Definition len {A} (l : list A) : Z := Z.of_nat (List.length l).

(** [range(n)] *)
Definition range (n : Z) : list Z := map Z.of_nat (seq 0 (Z.to_nat n)).

Definition nl : string := String (ascii_of_nat 10) EmptyString.

Definition START_DATE : Z := Date.ymd2ord 2023 1 1.

Definition BASE_PRICE : F64.float := (3.30)%f64.

Definition CATEGORIES : list string := [
  (* Cattle *)
  "Feeder Steer"; "Feeder Heifer"; "Yearling Steer"; "Yearling Bull";
  "Grown Steer"; "Grown Bull"; "Weaner Steer"; "Weaner Bull"; "Weaner Heifer";
  "Breeding Cow"; "Breeder"; "Dry Cow"; "Cull Cow"; "Heifer";
  "First Calf Heifer"; "Slaughter Cattle"; "Calves";
  (* Sheep *)
  "Breeding Ewe"; "Maiden Ewe"; "Dry Ewe"; "Cull Ewe";
  "Weaner Ewe"; "Feeder Ewe"; "Slaughter Ewe";
  "Wether Lamb"; "Weaner Lamb"; "Feeder Lamb"; "Slaughter Lamb"; "Lambs";
  (* Pigs *)
  "Breeder"; "Dry Sow"; "Cull Sow"; "Weaner Pig"; "Feeder Pig";
  "Grower Pig"; "Finisher Pig"; "Porker"; "Baconer";
  "Grower Barrow"; "Finisher Barrow";
  (* Goats *)
  "Breeder Doe"; "Dry Doe"; "Cull Doe"; "Breeder Buck"; "Sale Buck";
  "Mature Wether"; "Rangeland Goat"; "Capretto"; "Chevon"
]%string.

(** The entries under the source's [# Cattle] and [# Pigs] comments. *)
Definition CATTLE : list string := firstn 17 CATEGORIES.
Definition PIGS : list string := firstn 11 (skipn 29 CATEGORIES).

Definition SALEYARDS : list string := [
  "Wagga Wagga Livestock Marketing Centre";
  "Dubbo Regional Livestock Market";
  "Roma Saleyards";
  "Ballarat Regional Livestock Exchange";
  "Mount Gambier Livestock Exchange"
]%string.

Definition STATES : list string := ["NSW"; "VIC"; "QLD"; "SA"; "WA"]%string.

Open Scope string_scope.
Open Scope f64_scope.

(** Apply category-specific price multipliers. *)
Definition get_category_multiplier (category : string) : F64.float :=
  let has := fun sub => Str.contains sub category in
  let any := fun subs => Str.any_in subs category in
  (* Cattle *)
  if has "Weaner" && any ["Steer"; "Bull"; "Heifer"] then 1.18
  else if has "Yearling" && any ["Steer"; "Bull"] then 1.22
  else if any ["Breeding"; "Heifer"; "Dry Cow"] || String.eqb category "Breeder" then 1.15
  else if has "Cull Cow" then 0.95
  else if has "Feeder" && any ["Steer"; "Heifer"] then 1.18
  else if has "Grown" && any ["Steer"; "Bull"] then 1.0
  else if has "Slaughter Cattle" then 0.92
  else if has "Calves" then 1.25
  (* Sheep *)
  else if any ["Breeding Ewe"; "Maiden Ewe"; "Dry Ewe"] then 3.2
  else if any ["Cull Ewe"; "Slaughter Ewe"] then 2.8
  else if any ["Wether Lamb"; "Weaner Lamb"; "Feeder Lamb"] then 3.5
  else if any ["Slaughter Lamb"; "Lambs"] then 3.3
  (* Pigs *)
  else if (has "Breeder" || has "Dry Sow") && has "Sow" then 0.66
  else if has "Cull Sow" then 0.60
  else if any ["Weaner Pig"; "Feeder Pig"] then 0.70
  else if has "Grower" || has "Finisher" then 0.65
  else if has "Porker" || has "Baconer" then 0.66
  (* Goats *)
  else if has "Breeder Doe" || has "Dry Doe" then 1.30
  else if has "Cull Doe" then 1.20
  else if has "Breeder Buck" || has "Sale Buck" then 1.35
  else if has "Mature Wether" || has "Rangeland Goat" then 1.30
  else if has "Capretto" then 1.53
  else if has "Chevon" then 1.25
  else 1.0.

Close Scope f64_scope.

Section Script.
Context {P : Platform} (proc : Process).

Definition END_DATE : Z := now proc.

(** [min((END_DATE - START_DATE).days, 1095)], at most 3 years. *)
Definition TOTAL_DAYS : Z := Z.min (END_DATE - START_DATE) 1095.

(** Calculate realistic market price for a given day. *)
Definition calculate_price (day_offset : Z) : Random.Rand F64.float :=
  let progress := (F64.of_int day_offset / 1095.0)%f64 in
  (* Market trend *)
  let trend :=
    (if progress <? 0.2 then
       -0.05 * (progress / 0.2)
     else if progress <? 0.4 then
       let decline_progress := (progress - 0.2) / 0.2 in
       -0.05 - (0.25 * decline_progress)
     else if progress <? 0.6 then
       let recovery_progress := (progress - 0.4) / 0.2 in
       -0.30 + (0.20 * recovery_progress)
     else if progress <? 0.8 then
       let recovery_progress := (progress - 0.6) / 0.2 in
       -0.10 + (0.15 * recovery_progress)
     else
       let growth_progress := (progress - 0.8) / 0.2 in
       0.05 + (0.10 * growth_progress))%f64 in
  (* Seasonal variation *)
  let date := END_DATE - (TOTAL_DAYS - day_offset) in
  let day_of_year := Date.tm_yday date in
  let seasonal :=
    (sin ((F64.of_int day_of_year / 365.0 * 2 * F64.pi) - (F64.pi / 2)) * 0.10)%f64 in
  (* Weekly volatility *)
  let week_number := day_offset / 7 in
  let weekly_seed := week_number mod 13 in
  let weekly_volatility :=
    (sin (F64.of_int weekly_seed / 13.0 * 2 * F64.pi) * 0.08)%f64 in
  (* Daily variation *)
  Random.reseed day_offset ;;;
  daily_volatility <- Random.uniform (-0.03)%f64 (0.03)%f64 ;;
  (* Calculate final price *)
  let adjusted_price :=
    (BASE_PRICE * (1.0 + trend + seasonal + weekly_volatility + daily_volatility))%f64 in
  Random.ret (py_max (3.10)%f64 (py_min (3.50)%f64 adjusted_price)).

(** *** Generate SQL *)

(** What the script writes: a flushed batch (its three [print] calls) or
    any other single [print]. *)
Inductive output : Type :=
| Insert (values : list string)
| Print (text : string).

Definition INSERT_HEAD : string :=
  "INSERT INTO historical_market_prices (category, saleyard, state, price_per_kg, price_date, source, is_historical) VALUES".

Definition INSERT_TAIL : string :=
  "ON CONFLICT (category, saleyard, price_date) DO NOTHING;" ++ nl.

(** The text an [output] puts on standard output; every [print] ends its
    argument with a newline. *)
Definition render (o : output) : string :=
  match o with
  | Insert values =>
      INSERT_HEAD ++ nl ++ Str.join ("," ++ nl) values ++ nl ++ INSERT_TAIL ++ nl
  | Print text => text ++ nl
  end.

Definition RULE : string := "-- ============================================".

Definition banner : list output := [
  Print RULE;
  Print "-- HISTORICAL MARKET PRICES (3 YEARS)";
  Print RULE;
  Print ("-- Generated: " ++ generated proc);
  Print ("-- Total records: " ++ Str.of_int (TOTAL_DAYS * len CATEGORIES));
  Print (RULE ++ nl)
].

Definition batch_size : Z := 500.

(** The variables the loop updates, and what has been printed so far. *)
Record emitter : Type := {
  current_batch : list string;
  total_records : Z;
  stdout : list output
}.

(** The fields of one record, as the loop body has them in its locals just
    before it builds the INSERT value. *)
Record row : Type := {
  category : string;
  saleyard : string;
  state : string;
  category_price : F64.float;
  date_str : string;
  source : string
}.

(** Build INSERT value. *)
Definition value_of (r : row) : string :=
  "('" ++ category r ++ "', '" ++ saleyard r ++ "', '" ++ state r ++ "', "
  ++ Fmt.fixed4 (category_price r) ++ ", '" ++ date_str r ++ "', '"
  ++ source r ++ "', true)".

(** Determine source. *)
Definition source_of (day_offset : Z) : string :=
  if (day_offset <? 7)%Z then "Saleyard"
  else if (day_offset <? 30)%Z then "State Indicator"
  else "National Benchmark".

(** The first half of the inner loop body: from the loop variables to the
    fields of the record. *)
Definition make_row (day_offset : Z) (date_str : string)
    (base_price : F64.float) (category : string) : Random.Rand row :=
  (* Apply category multiplier *)
  let category_price := (base_price * get_category_multiplier category)%f64 in
  (* Random saleyard and state *)
  Random.reseed (day_offset + hash proc category) ;;;
  yard <- Random.choice SALEYARDS ;;
  let saleyard := Str.replace "'" "''" yard in  (* Escape quotes *)
  state <- Random.choice STATES ;;
  let source := source_of day_offset in
  Random.ret {| category := category; saleyard := saleyard; state := state;
                category_price := category_price; date_str := date_str;
                source := source |}.

(** The second half: append, count, and write the batch when full. *)
Definition append_value (value : string) (st : emitter) : emitter :=
  let current_batch := (current_batch st ++ [value])%list in
  let total_records := total_records st + 1 in
  if (batch_size <=? len current_batch)%Z then
    {| current_batch := [];
       total_records := total_records;
       stdout :=
         (stdout st ++ [Insert current_batch]
          ++ (* Progress indicator *)
             (if (total_records mod 5000 =? 0)%Z
              then [Print ("-- Progress: " ++ Str.with_commas total_records
                           ++ " records...")]
              else []))%list |}
  else
    {| current_batch := current_batch;
       total_records := total_records;
       stdout := stdout st |}.

(** [for x in xs: body], threading the loop state and the generator. *)
Fixpoint for_each {A S : Type} (xs : list A) (body : A -> S -> Random.Rand S)
    (st : S) : Random.Rand S :=
  match xs with
  | [] => Random.ret st
  | x :: rest => st' <- body x st ;; for_each rest body st'
  end.

Definition category_body (day_offset : Z) (date_str : string)
    (base_price : F64.float) (category : string) (st : emitter)
    : Random.Rand emitter :=
  r <- make_row day_offset date_str base_price category ;;
  Random.ret (append_value (value_of r) st).

Definition day_body (day_offset : Z) (st : emitter) : Random.Rand emitter :=
  let date := END_DATE - (TOTAL_DAYS - day_offset - 1) in
  let date_str := Date.strftime_ymd date in
  base_price <- calculate_price day_offset ;;
  for_each CATEGORIES (category_body day_offset date_str base_price) st.

(** Write remaining batch. *)
Definition flush_remaining (st : emitter) : emitter :=
  match current_batch st with
  | [] => st
  | _ :: _ =>
      {| current_batch := current_batch st;
         total_records := total_records st;
         stdout := (stdout st ++ [Insert (current_batch st)])%list |}
  end.

(** The bytes of the check-mark emoji as the file stores them. *)
Definition CHECK_MARK : string :=
  String (ascii_of_nat 195) (String (ascii_of_nat 162)
  (String (ascii_of_nat 197) (String (ascii_of_nat 147)
  (String (ascii_of_nat 226) (String (ascii_of_nat 128)
  (String (ascii_of_nat 166) EmptyString)))))).

Definition trailer (st : emitter) : list output := [
  Print (nl ++ "-- " ++ CHECK_MARK ++ " Complete: "
         ++ Str.with_commas (total_records st) ++ " total records");
  Print "-- Run this in Supabase SQL Editor"
].

(** The module body from the banner on; [fst] of the result is everything
    the run printed. *)
Definition main : Random.Rand (list output) :=
  let st0 := {| current_batch := []; total_records := 0; stdout := banner |} in
  st <- for_each (range TOTAL_DAYS) day_body st0 ;;
  let st := flush_remaining st in
  Random.ret (stdout st ++ trailer st)%list.

(** A written batch is never empty and never above the batch size. *)
Definition batch_ok (b : list string) : Prop := 0 < len b <= batch_size.

(** The batches among the outputs, in order. *)
Definition batches (out : list output) : list (list string) :=
  flat_map (fun o => match o with Insert vs => [vs] | Print _ => [] end) out.

End Script.

(** ** Values that do not depend on the generator state

    Every draw of the script follows a reseed, so the price of a day and the
    fields of a record are functions of the loop variables alone
    ([calculate_price_reseeds] and [make_row_reseeds] below); they are named
    here by running the code from an arbitrary state. *)

Section Derived.
Context {P : Platform} (proc : Process).

Definition arbitrary_state : gen := seed 0.

Definition price_at (day_offset : Z) : F64.float :=
  fst (calculate_price proc day_offset arbitrary_state).

Definition row_at (day_offset : Z) (category : string) : row :=
  let date := END_DATE proc - (TOTAL_DAYS proc - day_offset - 1) in
  fst (make_row proc day_offset (Date.strftime_ymd date)
         (price_at day_offset) category arbitrary_state).

(** The saleyard as drawn, before quotes are escaped. *)
Definition yard_at (day_offset : Z) (category : string) : string :=
  fst (Random.choice SALEYARDS (seed (day_offset + hash proc category))).

(** Every INSERT value of a run, in the order the loops produce them. *)
Definition all_values : list string :=
  flat_map (fun d => map (fun c => value_of (row_at d c)) CATEGORIES)
           (range (TOTAL_DAYS proc)).

End Derived.

(** ** The price formula as the specification words it *)

Module Spec.
Section WithPlatform.
Context {P : Platform} (proc : Process).

Open Scope f64_scope.

(** One linear piece: on progress from [lower] up to the next boundary the
    trend moves from [start] by [change], over a width of 0.2. *)
Record segment : Type := { lower : F64.float; start : F64.float; change : F64.float }.

Definition TREND : list segment := [
  {| lower := 0;   start := 0;     change := -0.05 |};
  {| lower := 0.2; start := -0.05; change := -0.25 |};
  {| lower := 0.4; start := -0.30; change := 0.20 |};
  {| lower := 0.6; start := -0.10; change := 0.15 |};
  {| lower := 0.8; start := 0.05;  change := 0.10 |}
].

Definition along (sg : segment) (progress : F64.float) : F64.float :=
  start sg + change sg * ((progress - lower sg) / 0.2).

(** The piece in force at [progress]: the last one whose lower boundary has
    been reached. *)
Fixpoint piece (current : segment) (rest : list segment) (progress : F64.float)
    : segment :=
  match rest with
  | [] => current
  | next :: rest' =>
      if progress <? lower next then current else piece next rest' progress
  end.

Definition trend (progress : F64.float) : F64.float :=
  match TREND with
  | [] => 0
  | first :: rest => along (piece first rest progress) progress
  end.

Definition two_pi : F64.float := 2 * F64.pi.

Definition seasonal (day_of_year : Z) : F64.float :=
  sin (F64.of_int day_of_year / 365 * two_pi - F64.pi / 2) * 0.10.

Definition weekly (day_offset : Z) : F64.float :=
  sin (F64.of_int ((day_offset / 7) mod 13) / 13 * two_pi) * 0.08.

(** Reseed with the day offset, then one uniform draw. *)
Definition daily (day_offset : Z) : F64.float :=
  fst (Random.uniform (-0.03) 0.03 (seed day_offset)).

Definition clamp (lo hi x : F64.float) : F64.float := py_max lo (py_min hi x).

Definition day_of_year (day_offset : Z) : Z :=
  Date.tm_yday (END_DATE proc - (TOTAL_DAYS proc - day_offset)).

Definition price (day_offset : Z) : F64.float :=
  let progress := F64.of_int day_offset / 1095 in
  clamp 3.10 3.50
    (BASE_PRICE * (1 + trend progress + seasonal (day_of_year day_offset)
                   + weekly day_offset + daily day_offset)).

End WithPlatform.
End Spec.

(** ** Reading string literals back out of SQL text

    A literal opens at a quote and closes at the next quote that is not
    doubled; a doubled quote inside stands for one quote character. *)

Module Sql.

Inductive mode : Type :=
| Outside
| Inside (acc : string)
| Closing (acc : string).

Definition step (m : mode) (c : ascii) : mode * list string :=
  match m with
  | Outside => if Ascii.eqb c Str.quote then (Inside "", []) else (Outside, [])
  | Inside acc =>
      if Ascii.eqb c Str.quote then (Closing acc, [])
      else (Inside (acc ++ String c ""), [])
  | Closing acc =>
      if Ascii.eqb c Str.quote then (Inside (acc ++ String Str.quote ""), [])
      else (Outside, [acc])
  end.

Fixpoint scan (m : mode) (text : string) : mode * list string :=
  match text with
  | EmptyString => (m, [])
  | String c rest =>
      let '(m', out) := step m c in
      let '(m'', out') := scan m' rest in
      (m'', (out ++ out')%list)
  end.

(** The literals of a complete text; [None] if a literal is left open. *)
Definition literals (text : string) : option (list string) :=
  match scan Outside text with
  | (Outside, out) => Some out
  | (Closing acc, out) => Some (out ++ [acc])%list
  | (Inside _, _) => None
  end.

End Sql.

(** A text that leaves the reader outside any literal, so that what follows
    it is read as if it stood alone. *)
Definition self_contained (text : string) : Prop :=
  forall rest : string,
    Sql.scan Sql.Outside (text ++ rest)
    = (fst (Sql.scan Sql.Outside rest),
       (snd (Sql.scan Sql.Outside text) ++ snd (Sql.scan Sql.Outside rest))%list).

(** The five quoted fields of a record, saleyard as drawn. *)
Definition quoted_fields (r : row) (yard : string) : list string :=
  [category r; yard; state r; date_str r; source r].

(** ** Two sample runs

    The clock readings are fixed; the hashes are the values CPython 3.11
    (64-bit) gives the category names under PYTHONHASHSEED=1 and
    PYTHONHASHSEED=2.  Strings outside the table are not hashed by the
    script. *)

Definition HASHES_1 : list (string * Z) := [
  ("Feeder Steer", 5040324727194334753);
  ("Feeder Heifer", 6356034134461050462);
  ("Yearling Steer", 8411957984001834755);
  ("Yearling Bull", 5386787047391357602);
  ("Grown Steer", 6913664349810841428);
  ("Grown Bull", (-6714249879905530221));
  ("Weaner Steer", 2370380452075219436);
  ("Weaner Bull", 3007975938845804472);
  ("Weaner Heifer", (-7966661971474052000));
  ("Breeding Cow", (-7795793877843033899));
  ("Breeder", (-1255985234800250481));
  ("Dry Cow", 6024283041102761405);
  ("Cull Cow", (-2762637622120180908));
  ("Heifer", 9112045247232955084);
  ("First Calf Heifer", 416467030635945897);
  ("Slaughter Cattle", (-5730018704881388328));
  ("Calves", 3105068581277961039);
  ("Breeding Ewe", 8665787484279517037);
  ("Maiden Ewe", (-6436834994791711071));
  ("Dry Ewe", (-6083842801909829517));
  ("Cull Ewe", (-8558077812163789014));
  ("Weaner Ewe", (-1329995927714923968));
  ("Feeder Ewe", 5565049037970875827);
  ("Slaughter Ewe", (-263061122405617868));
  ("Wether Lamb", 4394840285171554141);
  ("Weaner Lamb", (-1845239309873807636));
  ("Feeder Lamb", (-2698091760470464463));
  ("Slaughter Lamb", 5468464793456042057);
  ("Lambs", (-3483079704992473562));
  ("Dry Sow", (-4543197931071400860));
  ("Cull Sow", 2912773919243498594);
  ("Weaner Pig", (-3847824580688567956));
  ("Feeder Pig", (-5569892225941189123));
  ("Grower Pig", 7616020944165725536);
  ("Finisher Pig", (-806514174484531103));
  ("Porker", (-3656346134393193096));
  ("Baconer", 4819814038513831488);
  ("Grower Barrow", 2801889925753570764);
  ("Finisher Barrow", (-1984838937732889762));
  ("Breeder Doe", (-889336829379293917));
  ("Dry Doe", (-5578186733868929403));
  ("Cull Doe", 298766630739899857);
  ("Breeder Buck", 6695691289414076822);
  ("Sale Buck", (-1992941851789658667));
  ("Mature Wether", 6825169524440375618);
  ("Rangeland Goat", 5938964115159067495);
  ("Capretto", 2852581618887399312);
  ("Chevon", (-8589867126383131339))
]%string.

Definition HASHES_2 : list (string * Z) := [
  ("Feeder Steer", (-2224693115324721068));
  ("Feeder Heifer", 4384951732916075774);
  ("Yearling Steer", (-3536602789835641403));
  ("Yearling Bull", (-2292134742741882872));
  ("Grown Steer", (-4810621755343791444));
  ("Grown Bull", (-2712713974273288809));
  ("Weaner Steer", 7133231125445911133);
  ("Weaner Bull", 4665432951536820479);
  ("Weaner Heifer", 4987947224411836378);
  ("Breeding Cow", (-7429736219250326997));
  ("Breeder", 7435603868975934216);
  ("Dry Cow", (-110511776841780349));
  ("Cull Cow", 951062842129819753);
  ("Heifer", 3381217213793928776);
  ("First Calf Heifer", (-1314087730568115099));
  ("Slaughter Cattle", 9218813124755903844);
  ("Calves", (-4115816051364549099));
  ("Breeding Ewe", 2768098849103776077);
  ("Maiden Ewe", (-6449536278638407344));
  ("Dry Ewe", (-1576761144322705005));
  ("Cull Ewe", 2057673023699287624);
  ("Weaner Ewe", (-3887328054093022626));
  ("Feeder Ewe", (-8658184830059268252));
  ("Slaughter Ewe", 6499784301258145878);
  ("Wether Lamb", (-2499408396384700679));
  ("Weaner Lamb", 8258131820468246216);
  ("Feeder Lamb", (-825719225806021779));
  ("Slaughter Lamb", 8588463433935723733);
  ("Lambs", 6473283972743570193);
  ("Dry Sow", (-4276157890161882668));
  ("Cull Sow", 2070469896266477599);
  ("Weaner Pig", (-1386740702917283604));
  ("Feeder Pig", (-2695211177941165761));
  ("Grower Pig", 4313049148053861260);
  ("Finisher Pig", 1560077036462565715);
  ("Porker", 582134249659883596);
  ("Baconer", (-7258684045148578970));
  ("Grower Barrow", 6394616972671478299);
  ("Finisher Barrow", (-3842403176044205409));
  ("Breeder Doe", 3639228088988818687);
  ("Dry Doe", 5014865013723425290);
  ("Cull Doe", (-3604098675502483799));
  ("Breeder Buck", 6908750640781137794);
  ("Sale Buck", 4563157182116827064);
  ("Mature Wether", (-5797148807310298467));
  ("Rangeland Goat", 173657690294992049);
  ("Capretto", 4141081637080677255);
  ("Chevon", 658608426692786088)
]%string.
Definition table_hash (table : list (string * Z)) (s : string) : Z :=
  match find (fun entry => String.eqb (fst entry) s) table with
  | Some entry => snd entry
  | None => 0
  end.

Definition run_1 : Process := {|
  now := Date.ymd2ord 2026 11 3;
  generated := "2026-11-03T09:30:00.000000";
  hash := table_hash HASHES_1
|}.

Definition run_2 : Process := {|
  now := Date.ymd2ord 2026 11 3;
  generated := "2026-11-03T09:30:00.000000";
  hash := table_hash HASHES_2
|}.

(** A run whose clock reads 2022-12-25, a week before START_DATE. *)
Definition run_early : Process := {|
  now := Date.ymd2ord 2022 12 25;
  generated := "2022-12-25T08:00:00";
  hash := table_hash HASHES_1
|}.

(** A run started on START_DATE itself. *)
Definition run_0 : Process := {|
  now := Date.ymd2ord 2023 1 1;
  generated := "2023-01-01T00:00:00";
  hash := table_hash HASHES_1
|}.

(** ** Names for parts of a run

    Expressions the script computes inline, named so that statements can
    refer to them. *)

(** The progress line printed when [total_records] is [n]. *)
Definition progress_line (n : Z) : output :=
  Print ("-- Progress: " ++ Str.with_commas n ++ " records...").

(** The date of the records of a day offset, as the outer loop computes it
    before formatting. *)
Definition price_date (proc : Process) (day_offset : Z) : Z :=
  END_DATE proc - (TOTAL_DAYS proc - day_offset - 1).

(** The columns named by the ON CONFLICT clause. *)
Definition conflict_key (r : row) : string * string * string :=
  (category r, saleyard r, date_str r).

Definition key_dec (a b : string * string * string) : {a = b} + {a <> b}.
Proof. repeat decide equality. Defined.

(** * Properties *)

(** ** Binary64 facts *)

Section Binary64.

Open Scope f64_scope.

Lemma same_eq (a b : F64.float) : F64.same a b = true -> a = b.
Proof.
  destruct a as [s1 | s1 | | s1 m1 e1], b as [s2 | s2 | | s2 m2 e2];
    simpl; try discriminate; try reflexivity.
  - intro H. apply Bool.eqb_prop in H. now subst.
  - intro H. apply Bool.eqb_prop in H. now subst.
  - intro H. apply andb_prop in H as [H He]. apply andb_prop in H as [Hs Hm].
    apply Bool.eqb_prop in Hs. apply Pos.eqb_eq in Hm. apply Z.eqb_eq in He.
    now subst.
Qed.

Lemma ltb_leb (a b : F64.float) : (a <? b) = true -> (a <=? b) = true.
Proof.
  unfold F64.ltb, F64.leb, SFltb, SFleb.
  now destruct (SFcompare a b) as [[ | | ] | ].
Qed.

(** Whatever comes in, NaN and infinities included, [max(lo, min(hi, x))]
    leaves the interval closed by the two constants of the script. *)
Lemma clamp_range (x : F64.float) :
  (3.10 <=? py_max 3.10 (py_min 3.50 x)) = true
  /\ (py_max 3.10 (py_min 3.50 x) <=? 3.50) = true.
Proof.
  unfold py_max, py_min.
  destruct (x <? 3.50) eqn:Hhi.
  - destruct (3.10 <? x) eqn:Hlo.
    + split; now apply ltb_leb.
    + split; reflexivity.
  - split; reflexivity.
Qed.

(** A finite float between the two clamp constants has their exponent. *)
Lemma between_clamps (x : F64.float) :
  (3.10 <=? x) = true -> (x <=? 3.50) = true ->
  exists m : positive,
    x = S754_finite false m (-51)
    /\ (6980579422424269 <= Zpos m <= 7881299347898368)%Z.
Proof.
  unfold F64.leb, SFleb. intros Hlo Hhi.
  destruct x as [s | s | | s m e]; cbn [SFcompare] in Hlo, Hhi;
    try discriminate.
  - now destruct s.
  - destruct s; try discriminate.
    destruct (Z.compare_spec (-51) e) as [He | He | He]; try discriminate.
    + subst e. rewrite Z.compare_refl in Hhi.
      rewrite (Pos.compare_cont_spec 6980579422424269 m Eq) in Hlo.
      rewrite (Pos.compare_cont_spec m 7881299347898368 Eq) in Hhi.
      exists m. split; [reflexivity | ].
      assert (H1 : (6980579422424269 <= m)%positive).
      { intro E. rewrite E in Hlo. discriminate Hlo. }
      assert (H2 : (m <= 7881299347898368)%positive).
      { intro E. rewrite E in Hhi. discriminate Hhi. }
      split; now apply Pos2Z.pos_le_pos.
    + destruct (Z.compare_spec e (-51)) as [He' | He' | He']; try discriminate; lia.
Qed.

End Binary64.
(** *** Rounding to 53 digits

    [SpecFloat] rounds by shifting the exact mantissa right, one bit at a
    time, keeping a round bit and a sticky bit.  The lemmas below describe the
    result for a mantissa of [d > 53] digits that stays a normal number. *)

Section Rounding.

Lemma iter_pos_nat {A} (f : A -> A) (n : positive) (x : A) :
  iter_pos f n x = Nat.iter (Pos.to_nat n) f x.
Proof.
  revert x. induction n as [n IH | n IH | ]; intro x; cbn [iter_pos].
  - rewrite !IH, Pos2Nat.inj_xI, <- Nat.iter_add, <- Nat.iter_succ_r.
    f_equal. lia.
  - rewrite !IH, Pos2Nat.inj_xO, <- Nat.iter_add. f_equal. lia.
  - reflexivity.
Qed.

Lemma shr_1_m (r : shr_record) : 0 <= shr_m r -> shr_m (shr_1 r) = shr_m r / 2.
Proof.
  destruct r as [m r s]; simpl. destruct m as [ | p | p]; intro H; try lia.
  - reflexivity.
  - destruct p; simpl.
    + apply Z.div_unique with 1; lia.
    + apply Z.div_unique with 0; lia.
    + reflexivity.
Qed.

Lemma shr_iter_m (k : nat) (r : shr_record) :
  0 <= shr_m r -> shr_m (Nat.iter k shr_1 r) = shr_m r / 2 ^ Z.of_nat k.
Proof.
  intro H. induction k as [ | k IH].
  - simpl. now rewrite Z.div_1_r.
  - assert (0 < 2 ^ Z.of_nat k) by (apply Z.pow_pos_nonneg; lia).
    rewrite Nat2Z.inj_succ, Z.pow_succ_r by lia. simpl.
    rewrite shr_1_m; rewrite IH.
    + rewrite Z.div_div by lia. f_equal. apply Z.mul_comm.
    + apply Z.div_pos; lia.
Qed.


Lemma digits2_log2 (p : positive) : Zpos (digits2_pos p) = Z.log2 (Zpos p) + 1.
Proof.
  induction p as [p IH | p IH | ]; cbn [digits2_pos].
  - rewrite Pos2Z.inj_succ, IH, Pos2Z.inj_xI, Z.log2_succ_double by lia. lia.
  - rewrite Pos2Z.inj_succ, IH, Pos2Z.inj_xO, Z.log2_double by lia. lia.
  - reflexivity.
Qed.

Lemma digits2_bounds (p : positive) (n : Z) :
  2 ^ (n - 1) <= Zpos p < 2 ^ n -> 0 < n -> Zpos (digits2_pos p) = n.
Proof.
  intros H Hn. rewrite digits2_log2.
  assert (Z.log2 (Zpos p) = n - 1); [ | lia].
  apply Z.log2_unique; [lia | ].
  now replace (Z.succ (n - 1)) with n by lia.
Qed.

Lemma round_nearest_even_range (m : Z) (l : location) :
  m <= round_nearest_even m l <= m + 1.
Proof.
  destruct l as [ | [ | | ]]; simpl; try lia. destruct (Z.even m); lia.
Qed.

(** The shape of a rounded result: the exponent moves up by the digits
    dropped, the mantissa is the rounded quotient. *)
Lemma round_aux_normal (s : bool) (m : positive) (e d : Z) :
  2 ^ (d - 1) <= Zpos m -> Zpos m + 2 ^ (d - 53) < 2 ^ d -> 53 < d ->
  -1074 <= e + d - 53 <= 971 ->
  exists m' : positive,
    binary_round_aux F64.prec F64.emax s (Zpos m) e loc_Exact
    = S754_finite s m' (e + d - 53)
    /\ Zpos m' =
       round_nearest_even (Zpos m / 2 ^ (d - 53))
         (loc_of_shr_record
            (Nat.iter (Z.to_nat (d - 53)) shr_1
               {| shr_m := Zpos m; shr_r := false; shr_s := false |})).
Proof.
  intros Hlo Hhi Hd He.
  assert (Hpow : 0 < 2 ^ (d - 53)) by (apply Z.pow_pos_nonneg; lia).
  unfold binary_round_aux, shr_fexp.
  assert (Hdig : Zdigits2 (Zpos m) = d).
  { simpl. apply digits2_bounds; lia. }
  rewrite Hdig. unfold fexp, emin.
  replace (Z.max (d + e - F64.prec) (3 - F64.emax - F64.prec) - e) with (d - 53)
    by (unfold F64.prec, F64.emax; lia).
  unfold shr at 1. destruct (d - 53) as [ | k | k] eqn:Hk; try lia.
  rewrite iter_pos_nat. cbn [shr_record_of_loc]. rewrite Z2Nat.inj_pos.
  set (r1 := Nat.iter (Pos.to_nat k) shr_1 _).
  assert (Hm1 : shr_m r1 = Zpos m / 2 ^ Zpos k).
  { subst r1. rewrite shr_iter_m by (simpl; lia). simpl shr_m.
    now rewrite positive_nat_Z. }
  rewrite <- Hm1.
  pose proof (round_nearest_even_range (shr_m r1) (loc_of_shr_record r1)) as Hr.
  set (m1 := round_nearest_even (shr_m r1) (loc_of_shr_record r1)) in *.
  assert (Hq : 2 ^ 52 <= Zpos m / 2 ^ Zpos k < 2 ^ 53 - 1).
  { split.
    - apply Z.div_le_lower_bound; [lia | ].
      rewrite <- Z.pow_add_r by lia.
      replace (Zpos k + 52) with (d - 1) by lia. lia.
    - apply Z.div_lt_upper_bound; [lia | ].
      rewrite Z.mul_sub_distr_l, <- Z.pow_add_r by lia.
      replace (Zpos k + 53) with d by lia. lia. }
  assert (Hm1' : 2 ^ 52 <= m1 < 2 ^ 53) by lia.
  destruct m1 as [ | m' | m'] eqn:Em1; try lia.
  assert (Hdig' : Zdigits2 (Zpos m') = 53) by (simpl; apply digits2_bounds; lia).
  rewrite Hdig'.
  replace (Z.max (53 + (e + Zpos k) - F64.prec) (3 - F64.emax - F64.prec)
           - (e + Zpos k)) with 0
    by (unfold F64.prec, F64.emax; lia).
  cbn [shr shr_record_of_loc shr_m].
  replace (e + Zpos k <=? F64.emax - F64.prec)%Z with true
    by (symmetry; apply Z.leb_le; unfold F64.prec, F64.emax; lia).
  exists m'. split; [f_equal; lia | reflexivity].
Qed.



End Rounding.

(** *** Signs, zeros and subtraction *)

Section Signs.

Open Scope f64_scope.

Lemma sub_zero_r (x : F64.float) : x - 0 = x.
Proof. now destruct x as [[ | ] | [ | ] | | s m e]. Qed.

(** Adding [0 + y] or [y] to a non-zero number gives the same sum, although
    [0 + y] itself turns a negative zero into a positive one. *)
Lemma add_zero_absorbed (m : positive) (e : Z) (y : F64.float) :
  S754_finite false m e + (0 + y) = S754_finite false m e + y.
Proof. now destruct y as [[ | ] | [ | ] | | s my ey]. Qed.

Lemma round_aux_opp (s : bool) (m e : Z) (l : location) :
  binary_round_aux F64.prec F64.emax (negb s) m e l
  = SFopp (binary_round_aux F64.prec F64.emax s m e l).
Proof.
  unfold binary_round_aux.
  destruct (shr_fexp F64.prec F64.emax m e l) as [mrs' e'].
  destruct (shr_fexp F64.prec F64.emax _ e' loc_Exact) as [mrs'' e''].
  destruct (shr_m mrs''); try reflexivity.
  now destruct (e'' <=? F64.emax - F64.prec)%Z.
Qed.

Lemma mul_opp_l (a b : F64.float) : (- a) * b = - (a * b).
Proof.
  unfold F64.mul, F64.neg.
  destruct a as [sa | sa | | sa ma ea], b as [sb | sb | | sb mb eb];
    cbn [SFmul SFopp]; try reflexivity;
    try (now destruct sa, sb).
  rewrite <- round_aux_opp. f_equal. now destruct sa, sb.
Qed.

Lemma sub_as_add (a b : F64.float) : a - b = a + (- b).
Proof.
  unfold F64.sub, F64.add, F64.neg.
  destruct a as [sa | sa | | sa ma ea], b as [sb | sb | | sb mb eb];
    cbn [SFsub SFadd SFopp]; try reflexivity;
    now destruct sa, sb.
Qed.

End Signs.

(** ** The price model *)

Section PriceModel.
Context {P : Platform} (proc : Process).

Open Scope f64_scope.

(** The daily draw of [calculate_price]: reseed, then one uniform draw. *)
Lemma calculate_price_unfold (day_offset : Z) (g : gen) :
  exists adjusted_price : F64.float,
    calculate_price proc day_offset g
    = (py_max 3.10 (py_min 3.50 adjusted_price),
       snd (random (seed day_offset))).
Proof.
  cbv beta iota zeta
      delta [calculate_price Random.bind Random.reseed Random.uniform Random.ret].
  destruct (random (seed day_offset)) as [r g'].
  eexists. reflexivity.
Qed.

(** The call starts by reseeding, so neither its value nor the state it
    leaves depends on the state it finds. *)
Lemma calculate_price_reseeds (day_offset : Z) (g1 g2 : gen) :
  calculate_price proc day_offset g1 = calculate_price proc day_offset g2.
Proof. reflexivity. Qed.

(** C1.  For every day offset in [0, TOTAL_DAYS), [calculate_price] returns
    a value in the closed interval [3.10, 3.50]; the multiplier of a
    category plays no part in it. *)
Theorem calculate_price_in_range (day_offset : Z) (g : gen) :
  (0 <= day_offset < TOTAL_DAYS proc)%Z ->
  (3.10 <=? fst (calculate_price proc day_offset g)) = true
  /\ (fst (calculate_price proc day_offset g) <=? 3.50) = true.
Proof.
  intros _. destruct (calculate_price_unfold day_offset g) as [x ->].
  apply clamp_range.
Qed.

End PriceModel.

(** The first offset of the sample run under the reference platform. *)
Lemma calculate_price_in_range_witness :
  (F64.leb 3.10%f64
     (fst (calculate_price (P := cpython) run_1 0 (MT19937.seed 7))) = true
   /\ F64.leb (fst (calculate_price (P := cpython) run_1 0 (MT19937.seed 7)))
        3.50%f64 = true).
Proof.
  apply (calculate_price_in_range (P := cpython) run_1 0 (MT19937.seed 7)).
  vm_compute. split; [discriminate | reflexivity].
Defined.

(** ** The calendar *)

Ltac eval_tables :=
  repeat match goal with
  | |- context [nth (Z.to_nat ?k) ?l ?d] =>
      let v := eval vm_compute in (nth (Z.to_nat k) l d) in
      change (nth (Z.to_nat k) l d) with v
  end.

Ltac eval_tests :=
  repeat match goal with
  | |- context [Z.ltb ?x ?y] =>
      let v := eval vm_compute in (Z.ltb x y) in
      match v with true => idtac | false => idtac end;
      change (Z.ltb x y) with v
  | |- context [Z.eqb ?x ?y] =>
      let v := eval vm_compute in (Z.eqb x y) in
      match v with true => idtac | false => idtac end;
      change (Z.eqb x y) with v
  end.

(** The day of the year never leaves 0..366, whatever the ordinal. *)
Lemma tm_yday_range (n : Z) : 0 <= Date.tm_yday n <= 366.
Proof.
  unfold Date.tm_yday, Date.ord2ymd.
  set (a := (n - 1) mod Date.DI400Y).
  set (b := a mod Date.DI100Y).
  set (c := b mod Date.DI4Y).
  set (r := c mod 365).
  assert (Hr : 0 <= r < 365) by (apply Z.mod_pos_bound; lia).
  set (year := (n - 1) / Date.DI400Y * 400 + 1 + _).
  clearbody year. clearbody r.
  destruct ((c / 365 =? 4)%Z || (a / Date.DI100Y =? 4)%Z).
  - unfold Date.days_before_month. eval_tables. eval_tests.
    destruct (Date.is_leap (year - 1)); cbn [andb]; lia.
  - set (leapyear := (c / 365 =? 3)%Z && _). clearbody leapyear.
    rewrite Z.shiftr_div_pow2 by lia.
    set (month := (r + 50) / 2 ^ 5).
    assert (Hm : 1 <= month <= 12).
    { subst month. change (2 ^ 5) with 32. split.
      - apply Z.div_le_lower_bound; lia.
      - assert ((r + 50) / 32 < 13) by (apply Z.div_lt_upper_bound; lia). lia. }
    clearbody month.
    assert (Hcases : month = 1 \/ month = 2 \/ month = 3 \/ month = 4 \/ month = 5
                     \/ month = 6 \/ month = 7 \/ month = 8 \/ month = 9
                     \/ month = 10 \/ month = 11 \/ month = 12) by lia.
    clear Hm.
    repeat (destruct Hcases as [-> | Hcases]); try subst month;
      unfold Date.days_before_month; eval_tables; eval_tests;
      destruct leapyear; cbn [andb];
      match goal with |- context [(r <? ?p)%Z] => destruct (Z.ltb_spec r p) end;
      unfold Date.days_before_month; eval_tables; eval_tests;
      destruct (Date.is_leap year); cbn [andb]; lia.
Qed.

Lemma in_range (n d : Z) : 0 <= d < n -> In d (range n).
Proof.
  intro H. unfold range. apply in_map_iff. exists (Z.to_nat d). split.
  - lia.
  - apply in_seq. lia.
Qed.

Lemma range_bounds (n d : Z) : In d (range n) -> 0 <= d < n.
Proof.
  unfold range. intro H. apply in_map_iff in H as [k [<- H]].
  apply in_seq in H. lia.
Qed.

(** ** The formula of the specification *)

Section Formula.
Context {P : Platform} (proc : Process).

Open Scope f64_scope.

(** The script multiplies by 2 and then by pi; scaling by the constant
    2*pi gives the same double for every day of the year ... *)
Lemma seasonal_angle (day_of_year : Z) :
  (0 <= day_of_year <= 366)%Z ->
  F64.of_int day_of_year / 365.0 * 2 * F64.pi - F64.pi / 2
  = F64.of_int day_of_year / 365 * Spec.two_pi - F64.pi / 2.
Proof.
  intro H.
  assert (Hall : forallb (fun n =>
            F64.same (F64.of_int n / 365.0 * 2 * F64.pi - F64.pi / 2)
                     (F64.of_int n / 365 * Spec.two_pi - F64.pi / 2))
            (range 367) = true) by (vm_compute; reflexivity).
  rewrite forallb_forall in Hall. apply same_eq, Hall, in_range. lia.
Qed.

(** ... and for each of the thirteen weekly seeds. *)
Lemma weekly_angle (weekly_seed : Z) :
  (0 <= weekly_seed < 13)%Z ->
  F64.of_int weekly_seed / 13.0 * 2 * F64.pi
  = F64.of_int weekly_seed / 13 * Spec.two_pi.
Proof.
  intro H.
  assert (Hall : forallb (fun n =>
            F64.same (F64.of_int n / 13.0 * 2 * F64.pi)
                     (F64.of_int n / 13 * Spec.two_pi))
            (range 13) = true) by (vm_compute; reflexivity).
  rewrite forallb_forall in Hall. apply same_eq, Hall, in_range. lia.
Qed.

(** C2.  [calculate_price] is the base price times one plus the four
    components, clamped to [3.10, 3.50]: the trend is the five-piece linear
    function of progress = offset/1095 with boundaries 0.2, 0.4, 0.6 and
    0.8, the seasonal and weekly terms are the two sine waves, and the daily
    term is one uniform draw in [-0.03, 0.03] made right after reseeding
    with the day offset. *)
Theorem calculate_price_formula (day_offset : Z) (g : gen) :
  (0 <= day_offset < TOTAL_DAYS proc)%Z ->
  fst (calculate_price proc day_offset g) = Spec.price proc day_offset.
Proof.
  intros _.
  unfold Spec.price, Spec.clamp, Spec.seasonal, Spec.weekly, Spec.daily,
    Spec.day_of_year.
  rewrite <- seasonal_angle by apply tm_yday_range.
  rewrite <- weekly_angle by (apply Z.mod_pos_bound; lia).
  cbv beta iota zeta
      delta [calculate_price Random.bind Random.reseed Random.uniform Random.ret].
  destruct (random (seed day_offset)) as [r g']. cbn [fst].
  do 6 f_equal.
  unfold Spec.trend, Spec.TREND, Spec.piece, Spec.along.
  cbn [Spec.lower Spec.start Spec.change].
  destruct (_ <? 0.2).
  { now rewrite sub_zero_r, add_zero_absorbed. }
  destruct (_ <? 0.4).
  { now rewrite sub_as_add, <- mul_opp_l. }
  destruct (_ <? 0.6); [reflexivity | ].
  destruct (_ <? 0.8); reflexivity.
Qed.

End Formula.

Lemma calculate_price_formula_witness :
  fst (calculate_price (P := cpython) run_1 1094 (MT19937.seed 7))
  = Spec.price (P := cpython) run_1 1094.
Proof.
  apply (calculate_price_formula (P := cpython) run_1 1094 (MT19937.seed 7)).
  vm_compute. split; [discriminate | reflexivity].
Defined.

(** ** The daily draw inside [calculate_price] *)

Section DailyDraw.
Context {P : Platform} (proc : Process).

Open Scope f64_scope.

(** The formula holds at every offset, also outside the range of the loop. *)
Lemma price_formula_all_offsets (day_offset : Z) (g : gen) :
  fst (calculate_price proc day_offset g) = Spec.price proc day_offset.
Proof.
  unfold Spec.price, Spec.clamp, Spec.seasonal, Spec.weekly, Spec.daily,
    Spec.day_of_year.
  rewrite <- seasonal_angle by apply tm_yday_range.
  rewrite <- weekly_angle by (apply Z.mod_pos_bound; lia).
  cbv beta iota zeta
      delta [calculate_price Random.bind Random.reseed Random.uniform Random.ret].
  destruct (random (seed day_offset)) as [r g']. cbn [fst].
  do 6 f_equal.
  unfold Spec.trend, Spec.TREND, Spec.piece, Spec.along.
  cbn [Spec.lower Spec.start Spec.change].
  destruct (_ <? 0.2).
  { now rewrite sub_zero_r, add_zero_absorbed. }
  destruct (_ <? 0.4).
  { now rewrite sub_as_add, <- mul_opp_l. }
  destruct (_ <? 0.6); [reflexivity | ].
  destruct (_ <? 0.8); reflexivity.
Qed.

(** C8.  Whatever state the generator is in when [calculate_price] is
    called, its daily-noise draw is the one made right after reseeding with
    the day offset: two calls for the same offset return the same price and
    leave the same generator state, that state is the one a single uniform
    draw in [-0.03, 0.03] leaves after the reseed, and the price is the
    formula with that draw as its daily term. *)
Theorem daily_noise_repeats (day_offset : Z) (g1 g2 : gen) :
  calculate_price proc day_offset g1 = calculate_price proc day_offset g2
  /\ snd (calculate_price proc day_offset g1)
     = snd (Random.uniform (-0.03) 0.03 (seed day_offset))
  /\ fst (calculate_price proc day_offset g1)
     = Spec.clamp 3.10 3.50
         (BASE_PRICE
          * (1 + Spec.trend (F64.of_int day_offset / 1095)
             + Spec.seasonal (Spec.day_of_year proc day_offset)
             + Spec.weekly day_offset
             + fst (Random.uniform (-0.03) 0.03 (seed day_offset)))).
Proof.
  split; [apply calculate_price_reseeds | split].
  - cbv beta iota zeta
        delta [calculate_price Random.bind Random.reseed Random.uniform Random.ret].
    now destruct (random (seed day_offset)) as [r g'].
  - apply price_formula_all_offsets.
Qed.

End DailyDraw.

(** ** The category multiplier *)

Section Multiplier.

Open Scope f64_scope.

(** C3, as the code has it.  "Breeder Doe" reaches the goat rule and gets
    1.30; the exact string "Breeder" is caught earlier, by the exact-match
    test of the third cattle rule, and gets 1.15.  The lookup is a function
    of the category string alone. *)
Theorem breeder_rules :
  get_category_multiplier "Breeder Doe" = 1.30
  /\ get_category_multiplier "Breeder" = 1.15.
Proof. split; reflexivity. Qed.

(** C3 as stated fails: "Breeder" does not fall through to 1.0. *)
Lemma breeder_is_not_fallback :
  ~ (get_category_multiplier "Breeder Doe" = 1.30
     /\ get_category_multiplier "Breeder" = 1.0).
Proof. intros [_ H]. vm_compute in H. discriminate H. Qed.

(** Strings that match no rule do reach the fallback, two of the listed
    categories among them. *)
Lemma fallback_examples :
  get_category_multiplier "Weaner Ewe" = 1.0
  /\ get_category_multiplier "Feeder Ewe" = 1.0
  /\ get_category_multiplier "" = 1.0.
Proof. repeat split; reflexivity. Qed.

End Multiplier.

(** ** Records *)

Section Records.
Context {P : Platform} (proc : Process).

Open Scope f64_scope.

Lemma make_row_unfold (day_offset : Z) (date_str : string)
    (base_price : F64.float) (category : string) (g : gen) :
  let g0 := seed (day_offset + hash proc category) in
  let yard := Random.choice SALEYARDS g0 in
  let st := Random.choice STATES (snd yard) in
  make_row proc day_offset date_str base_price category g
  = ({| category := category;
        saleyard := Str.replace "'" "''" (fst yard);
        state := fst st;
        category_price := base_price * get_category_multiplier category;
        date_str := date_str;
        source := source_of day_offset |},
     snd st).
Proof.
  cbv beta iota zeta delta [make_row Random.bind Random.reseed Random.ret].
  destruct (Random.choice SALEYARDS _) as [yard g1].
  cbn [fst snd].
  now destruct (Random.choice STATES g1) as [st g2].
Qed.

(** The record is built right after a reseed, so it does not depend on the
    generator state the loop body starts from. *)
Lemma make_row_reseeds (day_offset : Z) (date_str : string)
    (base_price : F64.float) (category : string) (g1 g2 : gen) :
  make_row proc day_offset date_str base_price category g1
  = make_row proc day_offset date_str base_price category g2.
Proof. reflexivity. Qed.

(** C5.  The source label of a record is "Saleyard" exactly when the day
    offset is below 7, "State Indicator" exactly when it is in [7, 30), and
    "National Benchmark" otherwise. *)
Theorem source_by_recency (day_offset : Z) (date_str : string)
    (base_price : F64.float) (category : string) (g : gen) :
  let r := fst (make_row proc day_offset date_str base_price category g) in
  (source r = "Saleyard" <-> day_offset < 7)%Z
  /\ (source r = "State Indicator" <-> 7 <= day_offset < 30)%Z
  /\ (source r = "National Benchmark" <-> 30 <= day_offset)%Z.
Proof.
  rewrite make_row_unfold. cbn [fst source]. unfold source_of.
  destruct (Z.ltb_spec day_offset 7); [ | destruct (Z.ltb_spec day_offset 30)];
    repeat split; intros; try discriminate; try reflexivity; lia.
Qed.

End Records.

(** ** Prices per category *)

Section CategoryPrices.
Context {P : Platform} (proc : Process).

Open Scope f64_scope.

Lemma price_at_in_range (day_offset : Z) :
  (3.10 <=? price_at proc day_offset) = true
  /\ (price_at proc day_offset <=? 3.50) = true.
Proof.
  unfold price_at.
  destruct (calculate_price_unfold proc day_offset arbitrary_state) as [x ->].
  apply clamp_range.
Qed.

Lemma row_at_price (day_offset : Z) (category : string) :
  category_price (row_at proc day_offset category)
  = price_at proc day_offset * get_category_multiplier category.
Proof. unfold row_at. now rewrite make_row_unfold. Qed.




End CategoryPrices.


(** ** The emitter *)

Section Emitter.
Context {P : Platform} (proc : Process).

(** The loop body without the generator: append one value. *)
Let push (st : emitter) (value : string) : emitter := append_value value st.

Lemma day_values_loop (day_offset : Z) (date_str : string)
    (base_price : F64.float) (categories : list string) (st : emitter) (g : gen) :
  fst (for_each categories (category_body proc day_offset date_str base_price) st g)
  = fold_left push
      (map (fun c => value_of (fst (make_row proc day_offset date_str base_price c
                                      arbitrary_state)))
           categories)
      st.
Proof.
  revert st g. induction categories as [ | c rest IH]; intros st g.
  - reflexivity.
  - cbn [for_each map fold_left]. unfold Random.bind at 1.
    unfold category_body at 1. unfold Random.bind at 1, Random.ret at 1.
    rewrite (make_row_reseeds proc day_offset date_str base_price c g arbitrary_state).
    destruct (make_row proc day_offset date_str base_price c arbitrary_state)
      as [r g'].
    cbn [fst]. apply IH.
Qed.

Lemma day_body_values (day_offset : Z) (st : emitter) (g : gen) :
  fst (day_body proc day_offset st g)
  = fold_left push (map (fun c => value_of (row_at proc day_offset c)) CATEGORIES) st.
Proof.
  unfold day_body, Random.bind.
  rewrite (calculate_price_reseeds proc day_offset g arbitrary_state).
  unfold row_at, price_at.
  destruct (calculate_price proc day_offset arbitrary_state) as [base_price g'].
  cbn [fst]. apply day_values_loop.
Qed.

Lemma days_loop (days : list Z) (st : emitter) (g : gen) :
  fst (for_each days (day_body proc) st g)
  = fold_left push
      (flat_map (fun d => map (fun c => value_of (row_at proc d c)) CATEGORIES) days)
      st.
Proof.
  revert st g. induction days as [ | d rest IH]; intros st g.
  - reflexivity.
  - cbn [for_each flat_map]. unfold Random.bind at 1.
    rewrite fold_left_app, <- (day_body_values d st g).
    destruct (day_body proc d st g) as [st' g']. cbn [fst]. apply IH.
Qed.

(** What [main] prints, with the loops replaced by one pass over
    [all_values]. *)
Lemma main_output (g : gen) :
  fst (main proc g)
  = (let st := flush_remaining
                 (fold_left push (all_values proc)
                    {| current_batch := []; total_records := 0;
                       stdout := banner proc |}) in
     stdout st ++ trailer st)%list.
Proof.
  unfold main, Random.bind, Random.ret, all_values.
  rewrite <- (days_loop (range (TOTAL_DAYS proc)) _ g).
  now destruct (for_each (range (TOTAL_DAYS proc)) (day_body proc) _ g).
Qed.

Lemma batches_app (a b : list output) :
  batches (a ++ b) = (batches a ++ batches b)%list.
Proof. apply flat_map_app. Qed.

(** One append keeps the open batch short, keeps every written batch
    within the limit, and loses no value. *)
Lemma append_value_step (value : string) (st : emitter) :
  len (current_batch st) < batch_size ->
  Forall batch_ok (batches (stdout st)) ->
  let st' := append_value value st in
  len (current_batch st') < batch_size
  /\ Forall batch_ok (batches (stdout st'))
  /\ (List.concat (batches (stdout st')) ++ current_batch st'
      = (List.concat (batches (stdout st)) ++ current_batch st) ++ [value])%list
  /\ total_records st' = total_records st + 1.
Proof.
  intros Hopen Hdone. unfold append_value, batch_size, len in *.
  rewrite length_app, Nat2Z.inj_add. cbn [List.length].
  destruct (Z.leb_spec 500 (Z.of_nat (List.length (current_batch st)) + Z.of_nat 1))
    as [Hfull | Hroom]; cbn [current_batch stdout total_records].
  - repeat split.
    + rewrite !batches_app.
      apply Forall_app. split; [exact Hdone | ].
      apply Forall_app. split.
      * constructor; [ | constructor]. unfold batch_ok, batch_size, len.
        rewrite length_app, Nat2Z.inj_add. cbn [List.length]. lia.
      * now destruct (_ =? 0)%Z.
    + rewrite !batches_app, !concat_app.
      replace (batches (if (_ =? 0)%Z then _ else _)) with (@nil (list string))
        by now destruct (_ =? 0)%Z.
      cbn [batches flat_map List.concat app].
      now rewrite !app_nil_r, app_assoc.
  - repeat split; try assumption.
    + rewrite length_app, Nat2Z.inj_add. cbn [List.length]. lia.
    + now rewrite app_assoc.
Qed.

Lemma push_all (values : list string) (st : emitter) :
  len (current_batch st) < batch_size ->
  Forall batch_ok (batches (stdout st)) ->
  let st' := fold_left push values st in
  len (current_batch st') < batch_size
  /\ Forall batch_ok (batches (stdout st'))
  /\ (List.concat (batches (stdout st')) ++ current_batch st'
      = (List.concat (batches (stdout st)) ++ current_batch st) ++ values)%list
  /\ total_records st' = total_records st + len values.
Proof.
  revert st. induction values as [ | v rest IH]; intros st Hopen Hdone.
  - cbn [fold_left]. repeat split; try assumption.
    + now rewrite app_nil_r.
    + unfold len. cbn [List.length]. lia.
  - cbn [fold_left]. change (push st v) with (append_value v st).
    destruct (append_value_step v st Hopen Hdone) as [H1 [H2 [H3 H4]]].
    destruct (IH (append_value v st) H1 H2) as [K1 [K2 [K3 K4]]].
    repeat split; try assumption.
    + rewrite K3, H3, <- app_assoc. reflexivity.
    + rewrite K4, H4. unfold len. cbn [List.length]. lia.
Qed.

Lemma all_values_length :
  len (all_values proc) = Z.max 0 (TOTAL_DAYS proc) * len CATEGORIES.
Proof.
  unfold all_values, len.
  assert (Hflat : forall days : list Z,
             List.length (flat_map (fun d => map (fun c => value_of (row_at proc d c))
                                        CATEGORIES) days)
             = (List.length days * List.length CATEGORIES)%nat).
  { induction days as [ | d rest IH]; [reflexivity | ].
    cbn [flat_map]. rewrite length_app, length_map, IH. reflexivity. }
  rewrite Hflat. unfold range. rewrite length_map, length_seq, Nat2Z.inj_mul. lia.
Qed.

(** The batches of a whole run. *)
Lemma main_batches (g : gen) :
  Forall batch_ok (batches (fst (main proc g)))
  /\ List.concat (batches (fst (main proc g))) = all_values proc.
Proof.
  rewrite main_output.
  set (st0 := {| current_batch := []; total_records := 0; stdout := banner proc |}).
  destruct (push_all (all_values proc) st0) as [H1 [H2 [H3 _]]].
  - unfold batch_size, len. cbn. lia.
  - cbn. constructor.
  - fold push in H1, H2, H3 |- *.
    set (st := fold_left push (all_values proc) st0) in *.
    cbn [stdout st0 banner batches flat_map List.concat current_batch app] in H3.
    cbv zeta. unfold flush_remaining.
    destruct (current_batch st) as [ | v rest] eqn:Hcb.
    + rewrite batches_app. cbn [trailer batches flat_map].
      rewrite !app_nil_r in *. split; assumption.
    + cbn [stdout]. rewrite !batches_app, !concat_app.
      cbn [trailer batches flat_map List.concat app]. rewrite !app_nil_r.
      split; [ | exact H3].
      apply Forall_app. split; [exact H2 | ].
      constructor; [ | constructor].
      unfold batch_ok, len in *. cbn [List.length] in *. lia.
Qed.

(** C6, as the code has it.  Every INSERT statement carries at most 500
    value tuples, the batches taken in order are exactly the values the loops
    produce, each one once, and there are max(TOTAL_DAYS, 0) * len(CATEGORIES)
    of them: [range] of a negative TOTAL_DAYS is empty. *)
Theorem batches_partition_values (g : gen) :
  Forall (fun b => len b <= batch_size) (batches (fst (main proc g)))
  /\ List.concat (batches (fst (main proc g))) = all_values proc
  /\ len (List.concat (batches (fst (main proc g))))
     = Z.max 0 (TOTAL_DAYS proc) * len CATEGORIES.
Proof.
  destruct (main_batches g) as [Hok Hall].
  split; [ | split].
  - eapply Forall_impl; [ | exact Hok]. unfold batch_ok. intros b Hb. lia.
  - exact Hall.
  - rewrite Hall. apply all_values_length.
Qed.

End Emitter.

(** C6 as stated fails when the clock is before START_DATE: a run on
    2022-12-25 has TOTAL_DAYS = -7 and emits no row, not -343 of them. *)
Lemma rows_before_start_date :
  ~ (Forall (fun b => len b <= batch_size)
       (batches (fst (main (P := cpython) run_early (MT19937.seed 7))))
     /\ List.concat (batches (fst (main (P := cpython) run_early (MT19937.seed 7))))
        = all_values (P := cpython) run_early
     /\ len (List.concat
               (batches (fst (main (P := cpython) run_early (MT19937.seed 7)))))
        = TOTAL_DAYS run_early * len CATEGORIES).
Proof. intros [_ [_ H]]. vm_compute in H. discriminate H. Qed.

(** ** The category listed twice *)

Section Duplicates.
Context {P : Platform} (proc : Process).

Lemma count_occ_map_le {A B : Type} (decA : forall x y : A, {x = y} + {x <> y})
    (decB : forall x y : B, {x = y} + {x <> y}) (f : A -> B) (l : list A) (x : A) :
  (count_occ decA l x <= count_occ decB (map f l) (f x))%nat.
Proof.
  induction l as [ | a l IH]; [reflexivity | ].
  cbn [map count_occ].
  destruct (decA a x) as [-> | Hne].
  - destruct (decB (f x) (f x)); [lia | contradiction].
  - destruct (decB (f a) (f x)); lia.
Qed.

Lemma count_occ_flat_map_le {A B : Type} (decB : forall x y : B, {x = y} + {x <> y})
    (f : A -> list B) (l : list A) (a : A) (y : B) :
  In a l -> (count_occ decB (f a) y <= count_occ decB (flat_map f l) y)%nat.
Proof.
  induction l as [ | b l IH]; [contradiction | ].
  intros [-> | Hin]; cbn [flat_map]; rewrite count_occ_app.
  - lia.
  - specialize (IH Hin). lia.
Qed.

(** C9.  "Breeder" is listed twice, once among the cattle and once among
    the pigs.  For every day the loops therefore produce the same value
    tuple at positions 10 and 29 of the day, it occurs at least twice in
    the output, and the 49 records per day that the banner's total is made
    of count this category twice: only 48 categories are distinct. *)
Theorem breeder_listed_twice (day_offset : Z) (g : gen) :
  0 <= day_offset < TOTAL_DAYS proc ->
  count_occ string_dec CATEGORIES "Breeder" = 2%nat
  /\ In "Breeder" CATTLE /\ In "Breeder" PIGS
  /\ (let day := map (fun c => value_of (row_at proc day_offset c)) CATEGORIES in
      nth 10 day "" = value_of (row_at proc day_offset "Breeder")
      /\ nth 29 day "" = value_of (row_at proc day_offset "Breeder"))
  /\ (2 <= count_occ string_dec (List.concat (batches (fst (main proc g))))
               (value_of (row_at proc day_offset "Breeder")))%nat
  /\ len CATEGORIES = 49
  /\ List.length (nodup string_dec CATEGORIES) = 48%nat
  /\ In (Print ("-- Total records: " ++ Str.of_int (TOTAL_DAYS proc * 49)))
        (banner proc).
Proof.
  intro Hd.
  assert (Hcount : count_occ string_dec CATEGORIES "Breeder" = 2%nat)
    by (vm_compute; reflexivity).
  split; [exact Hcount | ].
  split; [vm_compute; tauto | ].
  split; [vm_compute; tauto | ].
  split; [split; reflexivity | ].
  split; [ | split; [reflexivity | split; [vm_compute; reflexivity | ]]].
  - destruct (main_batches proc g) as [_ ->]. unfold all_values.
    eapply Nat.le_trans;
      [ | apply (count_occ_flat_map_le string_dec _ _ day_offset);
          now apply in_range ].
    rewrite <- Hcount.
    apply (count_occ_map_le string_dec string_dec
             (fun c => value_of (row_at proc day_offset c))).
  - unfold banner. cbn [In]. do 4 right. left. reflexivity.
Qed.

End Duplicates.

Lemma breeder_listed_twice_witness :
  count_occ string_dec CATEGORIES "Breeder" = 2%nat.
Proof.
  apply (breeder_listed_twice (P := cpython) run_1 3 (MT19937.seed 7)).
  vm_compute. split; [discriminate | reflexivity].
Defined.

(** ** Reproducibility of the saleyard and state *)

Section Reproducibility.
Context {P : Platform}.

(** With the same hash of the category, the draw is the same from one run
    to the next, whatever the clock and the generator state. *)
Lemma saleyard_state_fixed_by_hash (run run' : Process) (day_offset : Z)
    (date_str date_str' : string) (base_price base_price' : F64.float)
    (category : string) (g g' : gen) :
  hash run category = hash run' category ->
  let r := fst (make_row run day_offset date_str base_price category g) in
  let r' := fst (make_row run' day_offset date_str' base_price' category g') in
  saleyard r = saleyard r' /\ state r = state r'.
Proof.
  intro Hhash. rewrite !make_row_unfold. cbn [fst saleyard state].
  now rewrite Hhash.
Qed.

End Reproducibility.

(** C7 at a failing input.  Day 0, category "Grown Steer", CPython's
    generator: the two sample runs differ only in the salt of [hash], and they
    choose different saleyards. *)
Theorem saleyard_differs_across_runs :
  saleyard (row_at (P := cpython) run_1 0 "Grown Steer")
  = "Dubbo Regional Livestock Market"
  /\ saleyard (row_at (P := cpython) run_2 0 "Grown Steer") = "Roma Saleyards"
  /\ now run_1 = now run_2.
Proof.
  split; [vm_compute; reflexivity | ].
  split; vm_compute; reflexivity.
Qed.

(** ** Quoting in the SQL text *)

Section Quoting.

Lemma quote_free_app (a b : string) :
  Str.quote_free (a ++ b) = Str.quote_free a && Str.quote_free b.
Proof.
  induction a as [ | c a IH]; [reflexivity | ].
  cbn [append Str.quote_free]. now rewrite IH, andb_assoc.
Qed.

Lemma append_assoc (a b c : string) : ((a ++ b) ++ c = a ++ (b ++ c))%string.
Proof.
  induction a as [ | x a IH]; [reflexivity | ].
  cbn [append]. now rewrite IH.
Qed.

Lemma append_empty_r (a : string) : (a ++ "")%string = a.
Proof.
  induction a as [ | x a IH]; [reflexivity | ].
  cbn [append]. now rewrite IH.
Qed.

(** Escaping leaves a string without quotes as it is. *)
Lemma replace_quote_free (new s : string) :
  Str.quote_free s = true -> Str.replace Str.quote new s = s.
Proof.
  induction s as [ | c s IH]; [reflexivity | ].
  cbn [Str.quote_free Str.replace]. intro H. apply andb_prop in H as [Hc Hs].
  apply negb_true_iff in Hc. rewrite Hc. now rewrite IH.
Qed.

Lemma nth_quote_free (l : list string) (i : nat) :
  forallb Str.quote_free l = true -> Str.quote_free (nth i l "") = true.
Proof.
  intro H. destruct (Nat.lt_ge_cases i (List.length l)) as [Hi | Hi].
  - rewrite forallb_forall in H. apply H. now apply nth_In.
  - now rewrite nth_overflow.
Qed.

(** Digits are not quotes. *)
Lemma digit_quote_free (k : Z) :
  k < 10 -> Ascii.eqb (Str.digit k) Str.quote = false.
Proof.
  intro H. unfold Str.digit.
  destruct (Z.le_gt_cases k 0) as [Hk | Hk].
  - replace (Z.to_nat k) with 0%nat by lia. reflexivity.
  - assert (Hcases : k = 1 \/ k = 2 \/ k = 3 \/ k = 4 \/ k = 5 \/ k = 6
                     \/ k = 7 \/ k = 8 \/ k = 9) by lia.
    repeat (destruct Hcases as [-> | Hcases]); try subst k; reflexivity.
Qed.

Lemma digits_quote_free (width : nat) (n : Z) :
  Str.quote_free (Str.digits width n) = true.
Proof.
  revert n. induction width as [ | w IH]; intro n; [reflexivity | ].
  cbn [Str.digits]. rewrite quote_free_app, IH. cbn [Str.quote_free andb].
  rewrite digit_quote_free; [reflexivity | ].
  pose proof (Z.mod_pos_bound n 10). lia.
Qed.

Lemma of_nonneg_quote_free (n : Z) : Str.quote_free (Str.of_nonneg n) = true.
Proof.
  unfold Str.of_nonneg. generalize (Z.to_nat (Z.log2 n)). intro fuel.
  revert n. induction fuel as [ | f IH]; intro n; cbn [Str.of_nonneg_aux].
  - cbn [Str.quote_free]. rewrite digit_quote_free; [reflexivity | ].
    pose proof (Z.mod_pos_bound n 10). lia.
  - destruct (Z.ltb_spec n 10).
    + cbn [Str.quote_free]. now rewrite digit_quote_free.
    + rewrite quote_free_app, IH. cbn [Str.quote_free andb].
      rewrite digit_quote_free; [reflexivity | ].
      pose proof (Z.mod_pos_bound n 10). lia.
Qed.

Lemma fixed4_quote_free (x : F64.float) : Str.quote_free (Fmt.fixed4 x) = true.
Proof.
  destruct x as [s | s | | s m e]; cbn [Fmt.fixed4].
  - now destruct s.
  - now destruct s.
  - reflexivity.
  - rewrite !quote_free_app, of_nonneg_quote_free, digits_quote_free.
    now destruct s.
Qed.

Lemma strftime_quote_free (ordinal : Z) :
  Str.quote_free (Date.strftime_ymd ordinal) = true.
Proof.
  unfold Date.strftime_ymd. destruct (Date.ord2ymd ordinal) as [[y m] d].
  now rewrite !quote_free_app, !digits_quote_free.
Qed.

Lemma source_quote_free (day_offset : Z) :
  Str.quote_free (source_of day_offset) = true.
Proof.
  unfold source_of.
  destruct (day_offset <? 7)%Z; [reflexivity | ].
  now destruct (day_offset <? 30)%Z.
Qed.

(** *** One character at a time *)

Lemma scan_outside_plain (c : ascii) (rest : string) :
  Ascii.eqb c Str.quote = false ->
  Sql.scan Sql.Outside (String c rest) = Sql.scan Sql.Outside rest.
Proof.
  intro H. cbn [Sql.scan Sql.step]. rewrite H.
  now destruct (Sql.scan Sql.Outside rest).
Qed.

Lemma scan_outside_open (rest : string) :
  Sql.scan Sql.Outside (String Str.quote rest) = Sql.scan (Sql.Inside "") rest.
Proof.
  cbn [Sql.scan Sql.step]. rewrite Ascii.eqb_refl.
  now destruct (Sql.scan (Sql.Inside "") rest).
Qed.

Lemma scan_inside_plain (acc : string) (c : ascii) (rest : string) :
  Ascii.eqb c Str.quote = false ->
  Sql.scan (Sql.Inside acc) (String c rest)
  = Sql.scan (Sql.Inside (acc ++ String c "")) rest.
Proof.
  intro H. cbn [Sql.scan Sql.step]. rewrite H.
  now destruct (Sql.scan (Sql.Inside (acc ++ String c "")) rest).
Qed.

Lemma scan_inside_doubled (acc rest : string) :
  Sql.scan (Sql.Inside acc) (String Str.quote (String Str.quote rest))
  = Sql.scan (Sql.Inside (acc ++ String Str.quote "")) rest.
Proof.
  cbn [Sql.scan Sql.step]. rewrite Ascii.eqb_refl.
  cbn [Sql.scan Sql.step]. rewrite Ascii.eqb_refl.
  now destruct (Sql.scan (Sql.Inside (acc ++ String Str.quote "")) rest).
Qed.

Lemma scan_inside_close (acc : string) (c : ascii) (rest : string) :
  Ascii.eqb c Str.quote = false ->
  Sql.scan (Sql.Inside acc) (String Str.quote (String c rest))
  = (fst (Sql.scan Sql.Outside rest), acc :: snd (Sql.scan Sql.Outside rest)).
Proof.
  intro H. cbn [Sql.scan Sql.step]. rewrite Ascii.eqb_refl.
  cbn [Sql.scan Sql.step]. rewrite H.
  now destruct (Sql.scan Sql.Outside rest).
Qed.

(** *** One field at a time *)

Lemma scan_outside_skip (s rest : string) :
  Str.quote_free s = true ->
  Sql.scan Sql.Outside (s ++ rest) = Sql.scan Sql.Outside rest.
Proof.
  induction s as [ | c s IH]; [reflexivity | ].
  cbn [Str.quote_free append]. intro H. apply andb_prop in H as [Hc Hs].
  apply negb_true_iff in Hc. rewrite scan_outside_plain by exact Hc. now apply IH.
Qed.

(** An escaped string inside a literal reads back as the string itself. *)
Lemma scan_escaped (s acc rest : string) :
  Sql.scan (Sql.Inside acc) (Str.replace Str.quote "''" s ++ rest)
  = Sql.scan (Sql.Inside (acc ++ s)) rest.
Proof.
  revert acc. induction s as [ | c s IH]; intro acc.
  - cbn [Str.replace append]. now rewrite append_empty_r.
  - cbn [Str.replace]. destruct (Ascii.eqb c Str.quote) eqn:Hc.
    + apply Ascii.eqb_eq in Hc. subst c.
      cbn [append]. rewrite scan_inside_doubled, IH, append_assoc. reflexivity.
    + cbn [append]. rewrite scan_inside_plain by exact Hc.
      rewrite IH, append_assoc. reflexivity.
Qed.

Lemma scan_inside_take (s acc rest : string) :
  Str.quote_free s = true ->
  Sql.scan (Sql.Inside acc) (s ++ rest) = Sql.scan (Sql.Inside (acc ++ s)) rest.
Proof.
  intro H. rewrite <- (replace_quote_free "''" s H) at 1. apply scan_escaped.
Qed.

End Quoting.

(** *** One value tuple, one statement *)

Section Statements.
Context {P : Platform} (proc : Process).

Ltac read_value :=
  repeat first
    [ rewrite scan_outside_plain by reflexivity
    | rewrite scan_outside_open
    | rewrite scan_escaped
    | rewrite scan_inside_take by assumption
    | rewrite scan_inside_close by reflexivity
    | rewrite scan_outside_skip by apply fixed4_quote_free ].

(** Reading a value tuple gives back its five quoted fields, the saleyard
    with its escaping undone. *)
Lemma value_scan (r : row) (yard rest : string) :
  Str.quote_free (category r) = true ->
  saleyard r = Str.replace Str.quote "''" yard ->
  Str.quote_free (state r) = true ->
  Str.quote_free (date_str r) = true ->
  Str.quote_free (source r) = true ->
  Sql.scan Sql.Outside (value_of r ++ rest)
  = (fst (Sql.scan Sql.Outside rest),
     (quoted_fields r yard ++ snd (Sql.scan Sql.Outside rest))%list).
Proof.
  intros Hcat Hyard Hstate Hdate Hsource.
  unfold value_of, quoted_fields. rewrite Hyard, !append_assoc.
  cbn [append]. read_value. cbn [fst snd append app]. reflexivity.
Qed.

Lemma choice_value (seq : list string) (g : gen) :
  fst (Random.choice seq g)
  = nth (Z.to_nat (fst (randbelow (Z.of_nat (List.length seq)) g))) seq "".
Proof.
  unfold Random.choice, Random.bind, Random.ret.
  now destruct (randbelow (Z.of_nat (List.length seq)) g).
Qed.

Lemma lists_quote_free :
  forallb Str.quote_free (CATEGORIES ++ SALEYARDS ++ STATES) = true.
Proof. reflexivity. Qed.

Lemma row_at_fields (day_offset : Z) (category : string) :
  row_at proc day_offset category
  = {| category := category;
       saleyard := Str.replace Str.quote "''" (yard_at proc day_offset category);
       state := state (row_at proc day_offset category);
       category_price := category_price (row_at proc day_offset category);
       date_str :=
         Date.strftime_ymd (END_DATE proc - (TOTAL_DAYS proc - day_offset - 1));
       source := source_of day_offset |}.
Proof. unfold row_at, yard_at. now rewrite make_row_unfold. Qed.

Lemma row_at_state_quote_free (day_offset : Z) (category : string) :
  Str.quote_free (state (row_at proc day_offset category)) = true.
Proof.
  unfold row_at. rewrite make_row_unfold. cbn [fst state].
  rewrite choice_value. now apply nth_quote_free.
Qed.

Lemma yard_at_quote_free (day_offset : Z) (category : string) :
  Str.quote_free (yard_at proc day_offset category) = true.
Proof.
  unfold yard_at. rewrite choice_value. now apply nth_quote_free.
Qed.

Lemma row_at_value_scan (day_offset : Z) (cat rest : string) :
  In cat CATEGORIES ->
  Sql.scan Sql.Outside (value_of (row_at proc day_offset cat) ++ rest)
  = (fst (Sql.scan Sql.Outside rest),
     (quoted_fields (row_at proc day_offset cat) (yard_at proc day_offset cat)
      ++ snd (Sql.scan Sql.Outside rest))%list).
Proof.
  intro Hin. apply value_scan.
  - rewrite row_at_fields. cbn [category].
    pose proof lists_quote_free as H. rewrite forallb_forall in H.
    apply H, in_or_app. now left.
  - now rewrite row_at_fields.
  - apply row_at_state_quote_free.
  - rewrite row_at_fields. apply strftime_quote_free.
  - rewrite row_at_fields. apply source_quote_free.
Qed.

Lemma row_at_self_contained (day_offset : Z) (category : string) :
  In category CATEGORIES ->
  self_contained (value_of (row_at proc day_offset category))
  /\ List.length (snd (Sql.scan Sql.Outside
                         (value_of (row_at proc day_offset category)))) = 5%nat.
Proof.
  intro Hin.
  pose proof (row_at_value_scan day_offset category "" Hin) as H0.
  rewrite append_empty_r in H0. cbn [Sql.scan fst snd] in H0.
  split.
  - intro rest. rewrite H0. cbn [snd]. rewrite app_nil_r.
    now apply row_at_value_scan.
  - rewrite H0. reflexivity.
Qed.

Lemma join_scan (sep : string) (values : list string) (rest : string) :
  Str.quote_free sep = true ->
  Forall self_contained values ->
  Sql.scan Sql.Outside (Str.join sep values ++ rest)
  = (fst (Sql.scan Sql.Outside rest),
     (flat_map (fun v => snd (Sql.scan Sql.Outside v)) values
      ++ snd (Sql.scan Sql.Outside rest))%list).
Proof.
  intro Hsep. induction values as [ | v rest_values IH]; intro Hall.
  - cbn [Str.join flat_map append app]. now destruct (Sql.scan Sql.Outside rest).
  - inversion Hall as [ | v' l' Hv Hrest]; subst.
    destruct rest_values as [ | w l].
    + cbn [Str.join flat_map]. rewrite Hv. now rewrite app_nil_r.
    + change (Str.join sep (v :: w :: l))
        with (v ++ sep ++ Str.join sep (w :: l))%string.
      rewrite !append_assoc, Hv.
      rewrite (scan_outside_skip sep) by exact Hsep.
      rewrite (IH Hrest). cbn [fst snd flat_map]. now rewrite app_assoc.
Qed.

(** Every value of a run is a value tuple of a listed category. *)
Lemma all_values_origin (v : string) :
  In v (all_values proc) ->
  exists day_offset cat,
    0 <= day_offset < TOTAL_DAYS proc
    /\ In cat CATEGORIES /\ v = value_of (row_at proc day_offset cat).
Proof.
  unfold all_values. intro H. apply in_flat_map in H as [d [Hd H]].
  apply in_map_iff in H as [c [<- Hc]]. exists d, c.
  split; [now apply range_bounds | now split].
Qed.

Lemma insert_literals (values : list string) :
  Forall (fun v => self_contained v
                   /\ List.length (snd (Sql.scan Sql.Outside v)) = 5%nat) values ->
  exists lits : list string,
    Sql.literals (render (Insert values)) = Some lits
    /\ len lits = 5 * len values.
Proof.
  intro Hall.
  exists (flat_map (fun v => snd (Sql.scan Sql.Outside v)) values). split.
  - unfold Sql.literals, render.
    rewrite (scan_outside_skip INSERT_HEAD) by reflexivity.
    rewrite (scan_outside_skip nl) by reflexivity.
    rewrite join_scan;
      [ | reflexivity | eapply Forall_impl; [ | exact Hall]; now intros v [Hv _] ].
    change (Sql.scan Sql.Outside (nl ++ INSERT_TAIL ++ nl)) with (Sql.Outside, @nil string).
    cbn [fst snd]. now rewrite app_nil_r.
  - unfold len. induction Hall as [ | v l [_ H5] _ IH]; [reflexivity | ].
    cbn [flat_map]. rewrite length_app, H5. cbn [List.length]. lia.
Qed.

(** C10.  In a value tuple only the saleyard goes through the escaping of
    single quotes; category, state, date and source are embedded as they
    are.  No element of CATEGORIES, SALEYARDS or STATES contains a quote, so
    the escaping changes nothing, every value tuple reads back as its five
    fields, and every INSERT statement of a run is made of complete literals,
    five per value tuple. *)
Theorem statements_well_quoted (g : gen) :
  forallb Str.quote_free (CATEGORIES ++ SALEYARDS ++ STATES) = true
  /\ (forall day_offset cat,
         In cat CATEGORIES ->
         let r := row_at proc day_offset cat in
         let yard := yard_at proc day_offset cat in
         category r = cat
         /\ saleyard r = Str.replace "'" "''" yard
         /\ saleyard r = yard
         /\ source r = source_of day_offset
         /\ date_str r
            = Date.strftime_ymd (END_DATE proc - (TOTAL_DAYS proc - day_offset - 1))
         /\ Sql.literals (value_of r) = Some (quoted_fields r yard))
  /\ (forall values,
         In values (batches (fst (main proc g))) ->
         exists lits : list string,
           Sql.literals (render (Insert values)) = Some lits
           /\ len lits = 5 * len values).
Proof.
  split; [exact lists_quote_free | split].
  - intros d c Hin r yard. subst r yard.
    repeat split; try (rewrite row_at_fields at 1; reflexivity).
    + rewrite row_at_fields at 1. cbn [saleyard].
      apply replace_quote_free, yard_at_quote_free.
    + unfold Sql.literals.
      pose proof (row_at_value_scan d c "" Hin) as H0.
      rewrite append_empty_r in H0. rewrite H0. cbn [Sql.scan fst snd].
      now rewrite app_nil_r.
  - intros values Hin. apply insert_literals.
    apply Forall_forall. intros v Hv.
    destruct (main_batches proc g) as [_ Hall].
    assert (Hv' : In v (all_values proc)).
    { rewrite <- Hall. apply in_concat. now exists values. }
    apply all_values_origin in Hv' as [d [c [_ [Hc ->]]]].
    now apply row_at_self_contained.
Qed.

End Statements.

(** * Further properties of the script *)

(** ** The shape of the output *)

Section OutputShape.
Context {P : Platform} (proc : Process).

Let push (st : emitter) (value : string) : emitter := append_value value st.

(** What one pass of the loop body adds to the output: nothing, a full batch,
    or a full batch and the progress line of a multiple of 5000. *)
Lemma append_value_body (value : string) (st : emitter) :
  len (current_batch st) = total_records st mod batch_size ->
  0 <= total_records st ->
  let st' := append_value value st in
  total_records st' = total_records st + 1
  /\ len (current_batch st') = total_records st' mod batch_size
  /\ exists body,
       stdout st' = (stdout st ++ body)%list
       /\ (forall o, In o body ->
             (exists b, o = Insert b /\ len b = batch_size)
             \/ (o = progress_line (total_records st')
                 /\ total_records st' mod 5000 = 0))
       /\ (total_records st' mod 5000 = 0 -> In (progress_line (total_records st')) body).
Proof.
  intros Hlen Htot. unfold append_value, batch_size, len in *.
  rewrite length_app, Nat2Z.inj_add. cbn [List.length].
  set (t := total_records st) in *.
  assert (Hmod : 0 <= t mod 500 < 500) by (apply Z.mod_pos_bound; lia).
  destruct (Z.leb_spec 500 (Z.of_nat (List.length (current_batch st)) + Z.of_nat 1))
    as [Hfull | Hroom]; cbn [current_batch stdout total_records List.length].
  - assert (Ht1 : (t + 1) mod 500 = 0).
    { symmetry. apply Z.mod_unique with (t / 500 + 1); [lia | ].
      pose proof (Z.div_mod t 500). lia. }
    split; [reflexivity | ]. split; [now rewrite Ht1 | ].
    eexists. split; [reflexivity | ]. split.
    + intros o Ho. apply in_app_or in Ho as [[<- | []] | Ho].
      * left. eexists. split; [reflexivity | ].
        rewrite length_app, Nat2Z.inj_add. cbn [List.length]. lia.
      * destruct (Z.eqb_spec ((t + 1) mod 5000) 0) as [H5 | H5];
          [ | contradiction].
        destruct Ho as [<- | []]. right. now split.
    + intro H5. apply in_or_app. right.
      apply Z.eqb_eq in H5. rewrite H5. now left.
  - assert (Ht1 : (t + 1) mod 500 = Z.of_nat (List.length (current_batch st)) + 1).
    { symmetry. apply Z.mod_unique with (t / 500); [lia | ].
      pose proof (Z.div_mod t 500). lia. }
    split; [reflexivity | ]. split.
    + rewrite length_app, Nat2Z.inj_add. cbn [List.length]. lia.
    + exists []. split; [now rewrite app_nil_r | ]. split.
      * intros o [].
      * intro H5. exfalso.
        assert ((t + 1) mod 500 = 0).
        { pose proof (Z.div_mod (t + 1) 5000).
          symmetry. apply Z.mod_unique with (10 * ((t + 1) / 5000)); lia. }
        lia.
Qed.

(** The same for a whole list of values. *)
Lemma push_body (values : list string) (st : emitter) :
  len (current_batch st) = total_records st mod batch_size ->
  0 <= total_records st ->
  let st' := fold_left push values st in
  total_records st' = total_records st + len values
  /\ len (current_batch st') = total_records st' mod batch_size
  /\ exists body,
       stdout st' = (stdout st ++ body)%list
       /\ (forall o, In o body ->
             (exists b, o = Insert b /\ len b = batch_size)
             \/ (exists n, o = progress_line n
                 /\ total_records st < n <= total_records st'
                 /\ n mod 5000 = 0))
       /\ (forall n, total_records st < n <= total_records st' ->
             n mod 5000 = 0 -> In (progress_line n) body).
Proof.
  revert st. induction values as [ | v rest IH]; intros st Hlen Htot.
  - cbn [fold_left]. unfold len at 1. cbn [List.length].
    split; [lia | ]. split; [exact Hlen | ].
    exists []. split; [now rewrite app_nil_r | ]. split.
    + intros o [].
    + intros n Hn. lia.
  - cbn [fold_left]. change (push st v) with (append_value v st).
    destruct (append_value_body v st Hlen Htot) as [H1 [H2 [b1 [Hb1 [Hs1 Hc1]]]]].
    destruct (IH (append_value v st) H2 ltac:(lia)) as [K1 [K2 [b2 [Hb2 [Hs2 Hc2]]]]].
    cbv zeta. split; [ | split; [exact K2 | ]].
    + rewrite K1, H1. unfold len. cbn [List.length]. lia.
    + assert (Hrest : 0 <= len rest) by (unfold len; lia).
      exists (b1 ++ b2)%list. split; [ | split].
      * rewrite Hb2, Hb1. now rewrite app_assoc.
      * intros o Ho. apply in_app_or in Ho as [Ho | Ho].
        -- destruct (Hs1 o Ho) as [Hi | [-> H5]]; [now left | ].
           right. eexists. split; [reflexivity | ]. split; [lia | exact H5].
        -- destruct (Hs2 o Ho) as [Hi | [n [-> [Hn H5]]]]; [now left | ].
           right. exists n. split; [reflexivity | ]. split; [lia | exact H5].
      * intros n Hn H5. apply in_or_app.
        destruct (Z.eq_dec n (total_records st + 1)) as [-> | Hne].
        -- left. rewrite <- H1. apply Hc1. now rewrite H1.
        -- right. apply Hc2; [lia | exact H5].
Qed.

End OutputShape.

Section RunShape.
Context {P : Platform} (proc : Process).

Let push (st : emitter) (value : string) : emitter := append_value value st.

Lemma batches_prints (body : list output) :
  (forall o, In o body ->
     (exists b, o = Insert b /\ len b = batch_size) \/ (exists n, o = progress_line n)) ->
  Forall (fun b => len b = batch_size) (batches body).
Proof.
  induction body as [ | o body IH]; intro H; [constructor | ].
  change (o :: body) with ([o] ++ body)%list. rewrite batches_app.
  apply Forall_app. split.
  - destruct (H o (or_introl eq_refl)) as [[b [-> Hb]] | [n ->]].
    + cbn. now constructor.
    + cbn. constructor.
  - apply IH. intros o' Ho'. apply H. now right.
Qed.

(** A run prints the banner, then full batches with the progress lines of
    the multiples of 5000 among them, then the rest as a last shorter batch,
    then the trailer with the number of values counted. *)
Lemma main_structure (g : gen) :
  exists (st : emitter) (body last : list output),
    fst (main proc g) = (banner proc ++ (body ++ last) ++ trailer st)%list
    /\ total_records st = len (all_values proc)
    /\ (forall o, In o body ->
          (exists b, o = Insert b /\ len b = batch_size)
          \/ (exists n, o = progress_line n
              /\ 0 < n <= len (all_values proc) /\ n mod 5000 = 0))
    /\ (forall n, 0 < n <= len (all_values proc) -> n mod 5000 = 0 ->
          In (progress_line n) body)
    /\ (last = []
        \/ exists b, last = [Insert b] /\ 0 < len b < batch_size).
Proof.
  rewrite main_output.
  set (st0 := {| current_batch := []; total_records := 0; stdout := banner proc |}).
  destruct (push_body (all_values proc) st0) as [Ht [Hc [body [Hout [Hs Hp]]]]];
    [reflexivity | cbn; lia | ].
  fold push. fold push in Ht, Hc, Hout, Hs, Hp.
  set (st := fold_left push (all_values proc) st0) in *.
  cbn [total_records st0 stdout] in Ht, Hout, Hs, Hp.
  rewrite Z.add_0_l in Ht. rewrite Ht in Hc, Hs, Hp.
  assert (Hbound : 0 <= len (all_values proc) mod batch_size < batch_size)
    by (apply Z.mod_pos_bound; reflexivity).
  cbv zeta. unfold flush_remaining.
  destruct (current_batch st) as [ | v rest] eqn:Hcb.
  - exists st, body, []. rewrite app_nil_r, Hout.
    repeat split; try assumption. now left.
  - exists {| current_batch := v :: rest; total_records := total_records st;
              stdout := (stdout st ++ [Insert (v :: rest)])%list |},
           body, [Insert (v :: rest)].
    cbn [stdout total_records]. rewrite Hout, <- !app_assoc.
    repeat split; try assumption.
    right. exists (v :: rest). split; [reflexivity | ].
    unfold len in *. cbn [List.length] in *. lia.
Qed.

Lemma batches_shape (g : gen) :
  exists (full : list (list string)) (last : list (list string)),
    batches (fst (main proc g)) = (full ++ last)%list
    /\ Forall (fun b => len b = batch_size) full
    /\ (last = [] \/ exists b, last = [b] /\ 0 < len b < batch_size)
    /\ len (all_values proc) = batch_size * len full + len (List.concat last).
Proof.
  destruct (main_batches proc g) as [_ Hall].
  destruct (main_structure g) as [st [body [last [Hout [_ [Hs [_ Hlast]]]]]]].
  assert (Hfull : Forall (fun b => len b = batch_size) (batches body)).
  { apply batches_prints. intros o Ho.
    destruct (Hs o Ho) as [Hi | [n [-> _]]]; [now left | right; now exists n]. }
  assert (Hb : batches (fst (main proc g)) = (batches body ++ batches last)%list).
  { rewrite Hout, !batches_app. cbn [banner trailer batches flat_map app].
    now rewrite app_nil_r. }
  assert (Hlen : forall l : list (list string),
             Forall (fun b => len b = batch_size) l ->
             len (List.concat l) = batch_size * len l).
  { induction 1 as [ | b l Hb' _ IH]; [reflexivity | ].
    unfold len in *. cbn [List.concat List.length].
    rewrite length_app, Nat2Z.inj_add, IH, Hb'. unfold batch_size. lia. }
  exists (batches body), (batches last).
  split; [exact Hb | split; [exact Hfull | split]].
  - destruct Hlast as [-> | [b [-> Hb']]]; [now left | right].
    exists b. now split.
  - rewrite <- Hall, Hb, concat_app. unfold len at 1.
    rewrite length_app, Nat2Z.inj_add.
    fold (len (List.concat (batches body))). now rewrite (Hlen _ Hfull).
Qed.

(** X1.  Every INSERT statement of a run but the last carries exactly 500
    value tuples, the last one carries between 1 and 500, and the number of
    statements is the number of values divided by 500, rounded up. *)
Theorem batches_full_but_last (g : gen) :
  exists (full : list (list string)) (last : list (list string)),
    batches (fst (main proc g)) = (full ++ last)%list
    /\ Forall (fun b => len b = batch_size) full
    /\ (last = [] \/ exists b, last = [b] /\ 0 < len b < batch_size)
    /\ len (batches (fst (main proc g)))
       = (len (all_values proc) + batch_size - 1) / batch_size.
Proof.
  destruct (batches_shape g) as [full [last [Hb [Hfull [Hshape HN]]]]].
  exists full, last. split; [exact Hb | split; [exact Hfull | split; [exact Hshape | ]]].
  assert (Happ : forall (A : Type) (a b : list A), len (a ++ b) = len a + len b).
  { intros A a b. unfold len. rewrite length_app. lia. }
  rewrite Hb, Happ, HN. unfold batch_size in *.
  assert (Hnn : 0 <= len full) by (unfold len; lia).
  destruct Hshape as [-> | [b [-> Hb']]].
  - change (len (List.concat [])) with 0. change (len (@nil (list string))) with 0.
    apply Z.div_unique with 499; lia.
  - cbn [List.concat]. rewrite app_nil_r.
    change (len [b]) with 1.
    apply Z.div_unique with (len b - 1); lia.
Qed.

(** X2.  When the clock is not past START_DATE, the loop body never runs:
    the run prints the banner and the trailer, no INSERT statement, and
    reports 0 records. *)
Theorem no_statement_without_days (g : gen) :
  END_DATE proc <= START_DATE ->
  fst (main proc g)
  = (banner proc
     ++ trailer {| current_batch := []; total_records := 0; stdout := banner proc |})%list
  /\ batches (fst (main proc g)) = [].
Proof.
  intro Hclock.
  assert (Hnone : all_values proc = []).
  { unfold all_values, range.
    replace (Z.to_nat (TOTAL_DAYS proc)) with 0%nat; [reflexivity | ].
    unfold TOTAL_DAYS. lia. }
  assert (Hout : fst (main proc g)
                 = (banner proc
                    ++ trailer {| current_batch := []; total_records := 0;
                                  stdout := banner proc |})%list).
  { rewrite main_output, Hnone. reflexivity. }
  split; [exact Hout | ].
  rewrite Hout, batches_app. reflexivity.
Qed.

(** X3.  For a run whose clock is not before START_DATE, the total announced
    in the banner, the total reported in the trailer and the number of value
    tuples in the INSERT statements are the same number. *)
Theorem reported_totals_agree (g : gen) :
  START_DATE <= END_DATE proc ->
  exists (st : emitter) (body : list output),
    fst (main proc g) = (banner proc ++ body ++ trailer st)%list
    /\ total_records st = TOTAL_DAYS proc * len CATEGORIES
    /\ len (List.concat (batches body)) = TOTAL_DAYS proc * len CATEGORIES
    /\ In (Print ("-- Total records: "
                  ++ Str.of_int (TOTAL_DAYS proc * len CATEGORIES)))
          (banner proc).
Proof.
  intro Hclock.
  assert (Hn : len (all_values proc) = TOTAL_DAYS proc * len CATEGORIES).
  { rewrite all_values_length. unfold TOTAL_DAYS. f_equal. lia. }
  destruct (main_batches proc g) as [_ Hall].
  destruct (main_structure g) as [st [body [last [Hout [Ht _]]]]].
  exists st, (body ++ last)%list.
  split; [exact Hout | ]. split; [now rewrite Ht | ]. split.
  - rewrite <- Hn, <- Hall, Hout, !batches_app.
    cbn [banner trailer batches flat_map app]. now rewrite app_nil_r.
  - unfold banner. cbn [In]. do 4 right. left. reflexivity.
Qed.

(** X4.  A progress line is printed for every multiple of 5000 up to the
    number of values, right among the full batches, and nothing else is
    printed between the banner and the trailer except INSERT statements:
    the progress test sits inside the flush, and no multiple of 5000 is
    missed because the batch size divides 5000. *)
Theorem progress_at_multiples_of_5000 (g : gen) :
  exists (st : emitter) (body : list output),
    fst (main proc g) = (banner proc ++ body ++ trailer st)%list
    /\ (forall n, 0 < n <= len (all_values proc) -> n mod 5000 = 0 ->
          In (progress_line n) body)
    /\ (forall text, In (Print text) body ->
          exists n, Print text = progress_line n
                    /\ 0 < n <= len (all_values proc) /\ n mod 5000 = 0).
Proof.
  destruct (main_structure g) as [st [body [last [Hout [_ [Hs [Hp Hlast]]]]]]].
  exists st, (body ++ last)%list. split; [exact Hout | split].
  - intros n Hn H5. apply in_or_app. left. now apply Hp.
  - intros text Hin. apply in_app_or in Hin as [Hin | Hin].
    + destruct (Hs _ Hin) as [[b [Hb _]] | [n [Hn Hr]]]; [discriminate Hb | ].
      now exists n.
    + destruct Hlast as [-> | [b [-> _]]]; [destruct Hin | ].
      destruct Hin as [Hb | []]. discriminate Hb.
Qed.

(** X5.  Once END_DATE is 1095 days or more past START_DATE the size of the
    output no longer changes: 53,655 values in 108 INSERT statements, 107 of
    them full and the last one with 155 tuples, and the trailer says so. *)
Theorem three_year_run (g : gen) :
  START_DATE + 1095 <= END_DATE proc ->
  TOTAL_DAYS proc = 1095
  /\ len (List.concat (batches (fst (main proc g)))) = 53655
  /\ (exists (full : list (list string)) (b : list string),
        batches (fst (main proc g)) = (full ++ [b])%list
        /\ Forall (fun b' => len b' = batch_size) full
        /\ len full = 107 /\ len b = 155)
  /\ In (Print (nl ++ "-- " ++ CHECK_MARK ++ " Complete: 53,655 total records"))
        (fst (main proc g)).
Proof.
  intro Hclock.
  assert (Hdays : TOTAL_DAYS proc = 1095) by (unfold TOTAL_DAYS; lia).
  assert (Hn : len (all_values proc) = 53655).
  { rewrite all_values_length, Hdays. reflexivity. }
  destruct (main_batches proc g) as [_ Hall].
  split; [exact Hdays | split; [now rewrite Hall | split]].
  - destruct (batches_shape g) as [full [last [Hb [Hfull [Hshape HN]]]]].
    rewrite Hn in HN. unfold batch_size in *.
    assert (Hnn : 0 <= len full) by (unfold len; lia).
    destruct Hshape as [-> | [b [-> Hb']]].
    + change (len (List.concat [])) with 0 in HN. lia.
    + cbn [List.concat] in HN. rewrite app_nil_r in HN.
      exists full, b. repeat split; try assumption; lia.
  - destruct (main_structure g) as [st [body [last [Hout [Ht _]]]]].
    rewrite Hout. apply in_or_app. right. apply in_or_app. right.
    unfold trailer. rewrite Ht, Hn. now left.
Qed.

End RunShape.

Lemma no_statement_without_days_witness :
  batches (fst (main (P := cpython) run_0 (MT19937.seed 7))) = [].
Proof.
  apply (no_statement_without_days (P := cpython) run_0 (MT19937.seed 7)).
  vm_compute. discriminate.
Defined.

Lemma three_year_run_witness : TOTAL_DAYS run_1 = 1095.
Proof.
  refine (proj1 (three_year_run (P := cpython) run_1 (MT19937.seed 7) _)).
  vm_compute. discriminate.
Defined.

Lemma reported_totals_agree_witness :
  exists (st : emitter) (body : list output),
    fst (main (P := cpython) run_1 (MT19937.seed 7))
    = (banner run_1 ++ body ++ trailer st)%list
    /\ total_records st = TOTAL_DAYS run_1 * len CATEGORIES
    /\ len (List.concat (batches body)) = TOTAL_DAYS run_1 * len CATEGORIES
    /\ In (Print ("-- Total records: "
                  ++ Str.of_int (TOTAL_DAYS run_1 * len CATEGORIES)))
          (banner run_1).
Proof.
  apply (reported_totals_agree (P := cpython) run_1 (MT19937.seed 7)).
  vm_compute. discriminate.
Defined.

(** ** Runs, dates and labels *)

Section RunsAndDates.
Context {P : Platform}.

Lemma price_at_clock (run run' : Process) (day_offset : Z) :
  now run = now run' -> price_at run day_offset = price_at run' day_offset.
Proof.
  intro Hnow. unfold price_at, calculate_price, TOTAL_DAYS, END_DATE.
  now rewrite Hnow.
Qed.

Lemma row_at_clock_hash (run run' : Process) (day_offset : Z) (cat : string) :
  now run = now run' -> hash run cat = hash run' cat ->
  row_at run day_offset cat = row_at run' day_offset cat.
Proof.
  intros Hnow Hhash. unfold row_at. rewrite !make_row_unfold. cbn [fst].
  rewrite (price_at_clock run run' day_offset Hnow).
  unfold TOTAL_DAYS, END_DATE. now rewrite Hnow, Hhash.
Qed.

(** X6.  Two runs with the same clock readings and the same hashes of the
    category names print the same output, whatever state the generator is in
    when each starts. *)
Theorem output_fixed_by_clock_and_hash (run run' : Process) (g g' : gen) :
  now run = now run' ->
  generated run = generated run' ->
  (forall cat, In cat CATEGORIES -> hash run cat = hash run' cat) ->
  fst (main run g) = fst (main run' g').
Proof.
  intros Hnow Hgen Hhash.
  assert (Hdays : TOTAL_DAYS run = TOTAL_DAYS run')
    by (unfold TOTAL_DAYS, END_DATE; now rewrite Hnow).
  assert (Hbanner : banner run = banner run')
    by (unfold banner; now rewrite Hdays, Hgen).
  assert (Hvalues : all_values run = all_values run').
  { unfold all_values. rewrite Hdays.
    apply flat_map_ext. intro d. apply map_ext_in. intros c Hc.
    now rewrite (row_at_clock_hash run run' d c Hnow (Hhash c Hc)). }
  rewrite !main_output. now rewrite Hbanner, Hvalues.
Qed.

End RunsAndDates.

Lemma output_fixed_by_clock_and_hash_witness :
  fst (main (P := cpython) run_1 (MT19937.seed 7))
  = fst (main (P := cpython) run_1 (MT19937.seed 8)).
Proof.
  apply (output_fixed_by_clock_and_hash (P := cpython) run_1 run_1
           (MT19937.seed 7) (MT19937.seed 8)).
  - reflexivity.
  - reflexivity.
  - intros cat _. reflexivity.
Defined.

Section Dates.
Context {P : Platform} (proc : Process).

(** X7.  The records of day offset [d] are dated [price_date d]: offsets that
    follow each other give days that follow each other, the last offset is
    dated END_DATE, and every date is after START_DATE, which itself gets no
    record.  [calculate_price] takes the season of the day from the day
    before that date: its result is the formula with the seasonal term of
    the day of the year of [price_date d - 1]. *)
Theorem price_dates (day_offset : Z) (g : gen) :
  0 <= day_offset < TOTAL_DAYS proc ->
  (forall cat, date_str (row_at proc day_offset cat)
               = Date.strftime_ymd (price_date proc day_offset))
  /\ START_DATE < price_date proc day_offset <= END_DATE proc
  /\ price_date proc (day_offset + 1) = price_date proc day_offset + 1
  /\ price_date proc (TOTAL_DAYS proc - 1) = END_DATE proc
  /\ fst (calculate_price proc day_offset g)
     = Spec.clamp 3.10 3.50
         (BASE_PRICE
          * (1 + Spec.trend (F64.of_int day_offset / 1095)
             + Spec.seasonal (Date.tm_yday (price_date proc day_offset - 1))
             + Spec.weekly day_offset
             + Spec.daily day_offset))%f64.
Proof.
  intro Hd. split; [ | split; [ | split; [ | split]]].
  - intro cat. now rewrite row_at_fields.
  - unfold price_date. unfold TOTAL_DAYS in *. lia.
  - unfold price_date. lia.
  - unfold price_date. lia.
  - rewrite price_formula_all_offsets. unfold Spec.price, Spec.day_of_year.
    do 7 f_equal. unfold price_date. lia.
Qed.

(** X8.  The source label goes by the distance from the oldest date, not
    from the newest: once more than 30 days are generated, the records dated
    END_DATE are labelled "National Benchmark", and the records labelled
    "Saleyard" are those of the seven oldest dates. *)
Theorem labels_follow_oldest_date (cat : string) :
  30 < TOTAL_DAYS proc ->
  source (row_at proc (TOTAL_DAYS proc - 1) cat) = "National Benchmark"
  /\ date_str (row_at proc (TOTAL_DAYS proc - 1) cat)
     = Date.strftime_ymd (END_DATE proc)
  /\ (forall day_offset,
        0 <= day_offset < TOTAL_DAYS proc ->
        (source (row_at proc day_offset cat) = "Saleyard"
         <-> price_date proc day_offset < price_date proc 0 + 7)).
Proof.
  intro Hdays. split; [ | split].
  - rewrite row_at_fields. cbn [source]. unfold source_of.
    destruct (Z.ltb_spec (TOTAL_DAYS proc - 1) 7); [lia | ].
    destruct (Z.ltb_spec (TOTAL_DAYS proc - 1) 30); [lia | reflexivity].
  - rewrite row_at_fields. cbn [date_str]. f_equal. lia.
  - intros d Hd. rewrite row_at_fields. cbn [source].
    unfold source_of, price_date.
    destruct (Z.ltb_spec d 7); [ | destruct (Z.ltb_spec d 30)];
      split; intro H'; try discriminate H'; try reflexivity; lia.
Qed.

End Dates.

Lemma price_dates_witness :
  price_date run_1 (TOTAL_DAYS run_1 - 1) = END_DATE run_1.
Proof.
  apply (price_dates (P := cpython) run_1 5 (MT19937.seed 7)).
  vm_compute. split; [discriminate | reflexivity].
Defined.

Lemma labels_follow_oldest_date_witness :
  source (row_at (P := cpython) run_1 (TOTAL_DAYS run_1 - 1) "Grown Steer")
  = "National Benchmark".
Proof.
  apply (labels_follow_oldest_date (P := cpython) run_1 "Grown Steer").
  vm_compute. reflexivity.
Defined.

(** ** The multiplier table as a whole *)

Section MultiplierTable.

Open Scope f64_scope.

Ltac split_rules :=
  repeat match goal with
  | |- context [if ?b then _ else _] => destruct b
  end.

Ltac pick_entry := repeat first [left; reflexivity | right].

Lemma multiplier_in_table (cat : string) :
  In (get_category_multiplier cat)
     [0.60; 0.65; 0.66; 0.70; 0.92; 0.95; 1.0; 1.15; 1.18; 1.20; 1.22; 1.25;
      1.30; 1.35; 1.53; 2.8; 3.2; 3.3; 3.5].
Proof.
  unfold get_category_multiplier. cbv zeta. cbn [In].
  split_rules; pick_entry.
Qed.

(** X9.  Whatever string it is given, the lookup returns one of nineteen
    constants, the smallest 0.60 and the largest 3.5. *)
Theorem multiplier_values (cat : string) :
  In (get_category_multiplier cat)
     [0.60; 0.65; 0.66; 0.70; 0.92; 0.95; 1.0; 1.15; 1.18; 1.20; 1.22; 1.25;
      1.30; 1.35; 1.53; 2.8; 3.2; 3.3; 3.5]
  /\ (0.60 <=? get_category_multiplier cat) = true
  /\ (get_category_multiplier cat <=? 3.5) = true.
Proof.
  split; [apply multiplier_in_table | ].
  pose proof (multiplier_in_table cat) as H. cbn [In] in H.
  repeat (destruct H as [<- | H]; [split; reflexivity | ]). destruct H.
Qed.

Lemma prefix_weaken (a b s : string) :
  prefix (a ++ b) s = true -> prefix a s = true.
Proof.
  revert s. induction a as [ | c a IH]; intro s.
  - now destruct s.
  - destruct s as [ | c' s]; [discriminate | ].
    cbn [append prefix]. destruct (ascii_dec c c'); [apply IH | discriminate].
Qed.

(** A string that contains [a ++ b] contains [a]. *)
Lemma contains_weaken (a b s : string) :
  Str.contains (a ++ b) s = true -> Str.contains a s = true.
Proof.
  induction s as [ | c s IH]; cbn [Str.contains].
  - apply prefix_weaken.
  - intro H. apply orb_prop in H as [H | H]; apply orb_true_iff.
    + left. now apply (prefix_weaken a b).
    + right. now apply IH.
Qed.

(** X10.  The third cattle rule comes before the sheep rules and the feeder
    rule, so a category that contains "Breeding Ewe" or "Heifer" never gets
    past it: its multiplier is 1.18, 1.22 or 1.15, never the 3.2 that the
    sheep rule lists for "Breeding Ewe". *)
Theorem third_rule_shadows (cat : string) :
  Str.contains "Breeding Ewe" cat = true \/ Str.contains "Heifer" cat = true ->
  (get_category_multiplier cat = 1.18
   \/ get_category_multiplier cat = 1.22
   \/ get_category_multiplier cat = 1.15)
  /\ get_category_multiplier cat <> 3.2.
Proof.
  intro H.
  assert (Hthird : Str.any_in ["Breeding"; "Heifer"; "Dry Cow"] cat = true).
  { unfold Str.any_in. cbn [existsb]. destruct H as [H | H].
    - rewrite (contains_weaken "Breeding" " Ewe" cat H). reflexivity.
    - rewrite H. now rewrite orb_true_r. }
  assert (Hcases : get_category_multiplier cat = 1.18
                   \/ get_category_multiplier cat = 1.22
                   \/ get_category_multiplier cat = 1.15).
  { unfold get_category_multiplier. cbv zeta. rewrite Hthird. cbn [orb].
    destruct (_ && _); [now left | ].
    destruct (_ && _); [right; now left | right; now right]. }
  split; [exact Hcases | ].
  destruct Hcases as [-> | [-> | ->]]; discriminate.
Qed.

End MultiplierTable.

Lemma third_rule_shadows_witness :
  get_category_multiplier "Breeding Ewe" <> (3.2)%f64.
Proof.
  apply (third_rule_shadows "Breeding Ewe").
  left. reflexivity.
Defined.

(** ** Prices are plain positive numbers *)

Section PlainPrices.

Open Scope f64_scope.

(** Rounding a mantissa of more than 53 digits gives a finite number also
    when the rounded mantissa carries into the next power of two. *)
Lemma round_aux_finite (s : bool) (m : positive) (e d : Z) :
  (2 ^ (d - 1) <= Zpos m < 2 ^ d)%Z -> (53 < d)%Z ->
  (-1074 <= e + d - 53)%Z -> (e + d - 52 <= 971)%Z ->
  exists (m' : positive) (e' : Z),
    binary_round_aux F64.prec F64.emax s (Zpos m) e loc_Exact = S754_finite s m' e'.
Proof.
  intros Hm Hd Hlo Hhi.
  destruct (Z_lt_le_dec (Zpos m + 2 ^ (d - 53)) (2 ^ d)) as [Hin | Hcarry].
  - destruct (round_aux_normal s m e d) as [m' [Hr _]]; try lia.
    now exists m', (e + d - 53)%Z.
  - assert (Hpow : (0 < 2 ^ (d - 53))%Z) by (apply Z.pow_pos_nonneg; lia).
    unfold binary_round_aux, shr_fexp.
    assert (Hdig : Zdigits2 (Zpos m) = d) by (simpl; apply digits2_bounds; lia).
    rewrite Hdig. unfold fexp, emin.
    replace (Z.max (d + e - F64.prec) (3 - F64.emax - F64.prec) - e)%Z with (d - 53)%Z
      by (unfold F64.prec, F64.emax; lia).
    unfold shr at 1. destruct (d - 53)%Z as [ | k | k] eqn:Hk; try lia.
    rewrite iter_pos_nat. cbn [shr_record_of_loc].
    set (r1 := Nat.iter (Pos.to_nat k) shr_1 _).
    assert (Hm1 : shr_m r1 = (Zpos m / 2 ^ Zpos k)%Z).
    { subst r1. rewrite shr_iter_m by (simpl; lia). simpl shr_m.
      now rewrite positive_nat_Z. }
    pose proof (round_nearest_even_range (shr_m r1) (loc_of_shr_record r1)) as Hr.
    set (m1 := round_nearest_even (shr_m r1) (loc_of_shr_record r1)) in *.
    assert (Hd' : d = (Zpos k + 53)%Z) by lia.
    assert (Hq : (Zpos m / 2 ^ Zpos k = 2 ^ 53 - 1)%Z).
    { symmetry. apply Z.div_unique with (Zpos m - 2 ^ Zpos k * (2 ^ 53 - 1))%Z; [ | lia].
      rewrite Hd', Z.pow_add_r in Hm, Hcarry by lia. lia. }
    assert (Hm1' : (2 ^ 52 <= m1 <= 2 ^ 53)%Z) by lia.
    destruct m1 as [ | m' | m'] eqn:Em1; try lia.
    destruct (Z.eq_dec (Zpos m') (2 ^ 53)) as [Htop | Hbelow].
    + assert (Hm' : m' = 9007199254740992%positive) by (apply Pos2Z.inj; exact Htop).
      subst m'.
      change (Zdigits2 9007199254740992) with 54%Z.
      replace (Z.max (54 + (e + Zpos k) - F64.prec) (3 - F64.emax - F64.prec)
               - (e + Zpos k))%Z with 1%Z
        by (unfold F64.prec, F64.emax; lia).
      cbn [shr shr_record_of_loc iter_pos shr_1 shr_m].
      replace (e + Zpos k + 1 <=? F64.emax - F64.prec)%Z with true
        by (symmetry; apply Z.leb_le; unfold F64.prec, F64.emax; lia).
      now eexists _, _.
    + assert (Hdig' : Zdigits2 (Zpos m') = 53%Z)
        by (simpl; apply digits2_bounds; lia).
      rewrite Hdig'.
      replace (Z.max (53 + (e + Zpos k) - F64.prec) (3 - F64.emax - F64.prec)
               - (e + Zpos k))%Z with 0%Z
        by (unfold F64.prec, F64.emax; lia).
      cbn [shr shr_record_of_loc shr_m].
      replace (e + Zpos k <=? F64.emax - F64.prec)%Z with true
        by (symmetry; apply Z.leb_le; unfold F64.prec, F64.emax; lia).
      now eexists _, _.
Qed.

(** The product of two positive normal numbers, well inside the exponent
    range, is a positive finite number. *)
Lemma mul_finite (m1 m2 : positive) (e1 e2 : Z) :
  (4503599627370496 <= Zpos m1 < 9007199254740992)%Z ->
  (4503599627370496 <= Zpos m2 < 9007199254740992)%Z ->
  (-1000 <= e1 + e2 <= 800)%Z ->
  exists (m' : positive) (e' : Z),
    S754_finite false m1 e1 * S754_finite false m2 e2 = S754_finite false m' e'.
Proof.
  intros H1 H2 He. unfold F64.mul. cbn [SFmul xorb].
  assert (Hlo : (4503599627370496 * 4503599627370496 <= Zpos m1 * Zpos m2)%Z)
    by (apply Z.mul_le_mono_nonneg; lia).
  assert (Hhi : (Zpos m1 * Zpos m2 < 9007199254740992 * 9007199254740992)%Z)
    by (apply Z.mul_lt_mono_nonneg; lia).
  rewrite Pos2Z.inj_mul in *.
  destruct (Z_lt_le_dec (Zpos m1 * Zpos m2) (2 ^ 105)) as [Hsmall | Hbig].
  - apply (round_aux_finite false (m1 * m2) (e1 + e2) 105); lia.
  - apply (round_aux_finite false (m1 * m2) (e1 + e2) 106); lia.
Qed.

Lemma multiplier_normal (cat : string) :
  exists (m : positive) (e : Z),
    get_category_multiplier cat = S754_finite false m e
    /\ (4503599627370496 <= Zpos m < 9007199254740992)%Z
    /\ (-53 <= e <= -51)%Z.
Proof.
  pose proof (multiplier_in_table cat) as H. cbn [In] in H.
  repeat (destruct H as [<- | H];
          [eexists _, _; split; [reflexivity | split; lia] | ]).
  destruct H.
Qed.

End PlainPrices.

Section EmittedPrices.
Context {P : Platform} (proc : Process).

Open Scope f64_scope.

(** X11.  The price of every record is a positive finite number, for every
    day offset, every category string and every [math.sin]: a NaN or an
    infinity in the components is absorbed by the clamp.  Its text is
    therefore an integer part, a point and four digits, never "nan", "inf"
    or a sign. *)
Theorem prices_are_plain_numbers (day_offset : Z) (cat : string) :
  exists (m : positive) (e : Z),
    category_price (row_at proc day_offset cat) = S754_finite false m e
    /\ Fmt.fixed4 (category_price (row_at proc day_offset cat))
       = (Str.of_nonneg (Fmt.scaled4 m e / 10000) ++ "."
          ++ Str.digits 4 (Fmt.scaled4 m e mod 10000))%string.
Proof.
  rewrite row_at_price.
  destruct (price_at_in_range proc day_offset) as [Hlo Hhi].
  destruct (between_clamps _ Hlo Hhi) as [mx [-> Hmx]].
  destruct (multiplier_normal cat) as [mc [ec [-> [Hmc Hec]]]].
  destruct (mul_finite mx mc (-51) ec) as [m [e Hprod]]; try lia.
  exists m, e. rewrite Hprod. split; reflexivity.
Qed.

End EmittedPrices.

(** ** Escaping and conflict keys *)

Section EscapingAndKeys.
Context {P : Platform} (proc : Process).

(** X12.  Escaping does its job for any saleyard name: if the other four
    quoted fields contain no quote, the value tuple of a record reads back as
    its five fields, the saleyard with whatever quotes it had. *)
Theorem value_reads_back (r : row) (yard : string) :
  Str.quote_free (category r) = true ->
  saleyard r = Str.replace "'" "''" yard ->
  Str.quote_free (state r) = true ->
  Str.quote_free (date_str r) = true ->
  Str.quote_free (source r) = true ->
  Sql.literals (value_of r) = Some (quoted_fields r yard).
Proof.
  intros Hcat Hyard Hstate Hdate Hsource. unfold Sql.literals.
  pose proof (value_scan r yard "" Hcat Hyard Hstate Hdate Hsource) as H.
  rewrite append_empty_r in H. rewrite H. cbn [Sql.scan fst snd].
  now rewrite app_nil_r.
Qed.

Lemma nodup_map_length {A B : Type} (decA : forall x y : A, {x = y} + {x <> y})
    (decB : forall x y : B, {x = y} + {x <> y}) (f : A -> B) (l : list A) :
  (forall x y, f x = f y -> x = y) ->
  List.length (nodup decB (map f l)) = List.length (nodup decA l).
Proof.
  intro Hinj. induction l as [ | a l IH]; [reflexivity | ].
  cbn [map nodup].
  destruct (in_dec decB (f a) (map f l)) as [Hb | Hb],
           (in_dec decA a l) as [Ha | Ha].
  - exact IH.
  - exfalso. apply in_map_iff in Hb as [x [Hx Hin]].
    apply Hinj in Hx. now subst.
  - exfalso. apply Hb. now apply in_map.
  - cbn [List.length]. now rewrite IH.
Qed.

(** X13.  The 49 value tuples of a day have only 48 different conflict keys
    (category, saleyard, price_date): the table takes at most 48 records per
    day from statements that end in ON CONFLICT ... DO NOTHING, one less than
    the run counts. *)
Theorem conflict_keys_per_day (day_offset : Z) :
  List.length (map (fun c => conflict_key (row_at proc day_offset c)) CATEGORIES)
  = 49%nat
  /\ List.length
       (nodup key_dec
          (map (fun c => conflict_key (row_at proc day_offset c)) CATEGORIES))
     = 48%nat.
Proof.
  split; [now rewrite length_map | ].
  rewrite (nodup_map_length string_dec key_dec).
  - vm_compute. reflexivity.
  - intros x y Hxy. unfold conflict_key in Hxy.
    rewrite (row_at_fields proc day_offset x) in Hxy.
    rewrite (row_at_fields proc day_offset y) in Hxy.
    cbn [category saleyard date_str] in Hxy. now inversion Hxy.
Qed.

End EscapingAndKeys.

Lemma value_reads_back_witness :
  Sql.literals
    (value_of {| category := "Calves"; saleyard := "O''Neil''s Yard";
                 state := "NSW"; category_price := (3.30)%f64;
                 date_str := "2024-02-29"; source := "Saleyard" |})
  = Some ["Calves"; "O'Neil's Yard"; "NSW"; "2024-02-29"; "Saleyard"].
Proof.
  apply (value_reads_back
           {| category := "Calves"; saleyard := "O''Neil''s Yard";
              state := "NSW"; category_price := (3.30)%f64;
              date_str := "2024-02-29"; source := "Saleyard" |}
           "O'Neil's Yard"); reflexivity.
Defined.
